(** * Budget Buddy: the client-side aggregation logic

    A shallow embedding of the [useMemo] computations of
    [src/pages/report-page.tsx], [src/pages/dashboard-page.tsx] and
    [src/components/budget-list.tsx], and the properties the specification
    states about them.

    Conventions of the embedding.
    - A JavaScript [number] is a [num]: a finite value, [Infinity],
      [-Infinity] or [NaN].  Finite values are exact rationals ([Qc]): binary
      rounding and the sign of zero are not modelled.  The [amount] of an
      expense and the [monthlyLimit] of a budget are finite (they arrive as
      JSON numbers), so sums stay in [Qc]; a non-finite value can only come
      out of a division.
    - A string is a [string]; [<=], [>=] and the default collation of
      [localeCompare] are the lexicographic order on character codes, with
      which the collation agrees on the strings compared here (month keys
      [YYYY-MM] and en-US month labels).
    - An object literal used as a dictionary is the list of its own
      properties in creation order; [Object_entries] enumerates it the way
      the language does.  The accumulators are typed [Record<string, number>]
      in the source: members inherited from [Object.prototype] are not
      modelled.
    - [Array.prototype.sort] is stable; for a consistent comparator its
      result is the unique stable ordering, which insertion computes.
    - The data of a query is an array, [undefined], or some other value
      ([queryData]); a memoised computation returns or throws
      ([completion]).
    - The month labels depend on the time zone of the browser only through
      whether local time is behind UTC, a parameter of the report. *)

From Stdlib Require Import QArith Qcanon ZArith NArith List String Ascii Bool.
From Stdlib Require Import Sorted Permutation Lia OrdersEx DecimalString.
From stdpp Require Import base list sorting strings gmap.

Local Open Scope string_scope.
Local Open Scope list_scope.

(** ** Numbers *)

Inductive num : Type :=
  | Fin (q : Qc)
  | PInf
  | NInf
  | NaN.

Definition sgn (q : Qc) : comparison := (q ?= 0)%Qc.

Definition inf_of (s : comparison) : num :=
  match s with Gt => PInf | Lt => NInf | Eq => NaN end.

(** [x / y] *)
Definition num_div (x y : num) : num :=
  match x, y with
  | NaN, _ | _, NaN => NaN
  | Fin a, Fin b =>
      match sgn b with
      | Eq => inf_of (sgn a)
      | _ => Fin (a / b)%Qc
      end
  | Fin _, _ => Fin 0%Qc
  | PInf, Fin b => match sgn b with Lt => NInf | _ => PInf end
  | NInf, Fin b => match sgn b with Lt => PInf | _ => NInf end
  | _, _ => NaN
  end.

(** [x * y] *)
Definition num_mul (x y : num) : num :=
  match x, y with
  | NaN, _ | _, NaN => NaN
  | Fin a, Fin b => Fin (a * b)%Qc
  | PInf, Fin b | Fin b, PInf => inf_of (sgn b)
  | NInf, Fin b | Fin b, NInf => inf_of (CompOpp (sgn b))
  | PInf, PInf | NInf, NInf => PInf
  | _, _ => NInf
  end.

(** [x - y] *)
Definition num_sub (x y : num) : num :=
  match x, y with
  | NaN, _ | _, NaN => NaN
  | Fin a, Fin b => Fin (a - b)%Qc
  | PInf, PInf | NInf, NInf => NaN
  | PInf, _ | _, NInf => PInf
  | NInf, _ | _, PInf => NInf
  end.

Definition Qcmin (a b : Qc) : Qc :=
  match (a ?= b)%Qc with Gt => b | _ => a end.

(** [Math.min(x, y)] *)
Definition Math_min (x y : num) : num :=
  match x, y with
  | NaN, _ | _, NaN => NaN
  | NInf, _ | _, NInf => NInf
  | PInf, z | z, PInf => z
  | Fin a, Fin b => Fin (Qcmin a b)
  end.

(** [a > b] on finite numbers *)
Definition Qc_gtb (a b : Qc) : bool :=
  match (a ?= b)%Qc with Gt => true | _ => false end.

(** What [sort] reads off the number a comparator returns: its sign, with
    [NaN] taken as [+0]. *)
Definition sortSign (v : num) : comparison :=
  match v with
  | Fin q => sgn q
  | PInf => Gt
  | NInf => Lt
  | NaN => Eq
  end.

(** ** Strings *)

Definition str_compare : string -> string -> comparison := String_as_OT.compare.

(** [a >= b] and [a <= b] *)
Definition str_ge (a b : string) : bool :=
  match str_compare a b with Lt => false | _ => true end.
Definition str_le (a b : string) : bool :=
  match str_compare a b with Gt => false | _ => true end.

(** [s.startsWith(p)] *)
Definition startsWith (s p : string) : bool := String.prefix p s.

(** [a.localeCompare(b)] *)
Definition localeCompare (a b : string) : num :=
  match str_compare a b with
  | Lt => Fin (- 1)%Qc
  | Eq => Fin 0%Qc
  | Gt => Fin 1%Qc
  end.

(** [!s] for a string: only the empty string is falsy. *)
Definition str_not (s : string) : bool :=
  match s with EmptyString => true | _ => false end.

(** ** Values that may not be arrays, and completions *)

(** What a query hands to a component where a collection is expected. *)
Inductive queryData (A : Type) : Type :=
  | Undefined                 (* no data yet *)
  | NonArray (truthy : bool)  (* any other value that is not an array and has
                                 no array methods: [null], [0], [""] (falsy);
                                 an object, a non-empty string (truthy) *)
  | Arr (xs : list A).
Arguments Undefined {A}.
Arguments NonArray {A} truthy.
Arguments Arr {A} xs.

(** The destructuring default [{ data: xs = [] }]: only [undefined] is
    replaced. *)
Definition orEmpty {A} (d : queryData A) : queryData A :=
  match d with Undefined => Arr [] | _ => d end.

(** [!d] *)
Definition js_not {A} (d : queryData A) : bool :=
  match d with
  | Undefined => true
  | NonArray truthy => negb truthy
  | Arr _ => false
  end.

(** [Array.isArray(d)] *)
Definition isArray {A} (d : queryData A) : bool :=
  match d with Arr _ => true | _ => false end.

Inductive exn : Type :=
  | TypeError.   (* [x.filter is not a function] *)

Inductive completion (A : Type) : Type :=
  | Return (a : A)
  | Throw (e : exn).
Arguments Return {A} a.
Arguments Throw {A} e.

(** ** [Array.prototype.sort] *)

Section Sort.
Context {A : Type}.
Variable cmp : A -> A -> comparison.

(** [x] stood before every element of [l] in the array: it goes in front
    of the first element it does not have to follow. *)
Fixpoint insertSorted (x : A) (l : list A) : list A :=
  match l with
  | [] => [x]
  | y :: l' =>
      match cmp x y with
      | Gt => y :: insertSorted x l'
      | _ => x :: l
      end
  end.

Fixpoint sortWith (l : list A) : list A :=
  match l with
  | [] => []
  | x :: l' => insertSorted x (sortWith l')
  end.
End Sort.

(** [l.sort(comparefn)] *)
Definition Array_sort {A} (comparefn : A -> A -> num) (l : list A) : list A :=
  sortWith (fun a b => sortSign (comparefn a b)) l.

(** ** Objects used as dictionaries *)

Definition jsobject (V : Type) : Type := list (string * V).

(** [o[k]], [None] for [undefined] *)
Fixpoint obj_get {V} (o : jsobject V) (k : string) : option V :=
  match o with
  | [] => None
  | (k', v) :: o' => if String.eqb k' k then Some v else obj_get o' k
  end.

(** [o[k] = v]: an existing property keeps its place, a new one is created
    last. *)
Fixpoint obj_set {V} (o : jsobject V) (k : string) (v : V) : jsobject V :=
  match o with
  | [] => [(k, v)]
  | (k', v') :: o' =>
      if String.eqb k' k then (k', v) :: o' else (k', v') :: obj_set o' k v
  end.

Definition digit (c : ascii) : option N :=
  let n := N_of_ascii c in
  if (48 <=? n)%N && (n <=? 57)%N then Some (n - 48)%N else None.

Fixpoint digits (s : string) (acc : N) : option N :=
  match s with
  | EmptyString => Some acc
  | String c s' =>
      match digit c with
      | Some d => digits s' (10 * acc + d)%N
      | None => None
      end
  end.

(** A property key is an array index when it is the canonical decimal
    numeral of an integer below [2^32 - 1]. *)
Definition arrayIndex (k : string) : option N :=
  match k with
  | EmptyString => None
  | String "0" EmptyString => Some 0%N
  | String "0" _ => None
  | _ =>
      match digits k 0 with
      | Some n => if (n <? 4294967295)%N then Some n else None
      | None => None
      end
  end.

Definition indexed {V} (kv : string * V) : list (N * (string * V)) :=
  match arrayIndex (fst kv) with Some i => [(i, kv)] | None => [] end.

Definition isIndexKey {V} (kv : string * V) : bool :=
  match arrayIndex (fst kv) with Some _ => true | None => false end.

(** [Object.entries(o)]: the array-index keys in ascending numeric order,
    then the other keys in creation order. *)
Definition Object_entries {V} (o : jsobject V) : list (string * V) :=
  map snd (sortWith (fun x y => N.compare (fst x) (fst y)) (flat_map indexed o))
  ++ List.filter (fun kv => negb (isIndexKey kv)) o.

(** ** Records *)

Module Expense.
Record t : Type := {
  id : option N;
  description : string;
  amount : Qc;
  category : string;
  date : string
}.
End Expense.
Abbreviation Expense := Expense.t.

Module Budget.
Record t : Type := {
  id : option N;
  category : string;
  monthlyLimit : Qc;
  month : string;
  spent : Qc;
  createdAt : option string
}.
End Budget.
Abbreviation Budget := Budget.t.

(** [interface ChartData] of the chart component (without the optional
    colour, which no aggregation sets). *)
Record ChartData : Type := { name : string; value : Qc }.

Definition toChartData (kv : string * Qc) : ChartData :=
  {| name := fst kv; value := snd kv |}.

(** [x || 0] for [x] a number or [undefined] *)
Definition or0 (x : option Qc) : Qc :=
  match x with
  | Some v => if Qc_eq_dec v 0%Qc then 0%Qc else v
  | None => 0%Qc
  end.

(** [acc[key] = (acc[key] || 0) + amount] *)
Definition addTo (acc : jsobject Qc) (key : string) (amount : Qc) : jsobject Qc :=
  obj_set acc key (or0 (obj_get acc key) + amount)%Qc.

(** [expenses.reduce((sum, expense) => sum + expense.amount, 0)] *)
Definition sumOfAmounts (expenses : list Expense) : Qc :=
  fold_left (fun sum expense => (sum + Expense.amount expense)%Qc) expenses 0%Qc.

(** The reducer that groups amounts by category, shared by the report and
    the dashboard. *)
Definition spendingByCategory (expenses : list Expense) : jsobject Qc :=
  fold_left (fun acc expense =>
               addTo acc (Expense.category expense) (Expense.amount expense))
            expenses [].

(** ** Budget list ([components/budget-list.tsx]) *)

Module BudgetList.

(** [interface BudgetWithSpending extends Budget] *)
Record BudgetWithSpending : Type := {
  budget : Budget;
  actualSpent : Qc;
  remaining : Qc;
  percentageUsed : num;
  isOverBudget : bool
}.

Definition inScope (b : Budget) (expense : Expense) : bool :=
  String.eqb (Expense.category expense) (Budget.category b)
  && startsWith (Expense.date expense) (Budget.month b).

(** The callback of [map]. *)
Definition progress (expenses : list Expense) (b : Budget) : BudgetWithSpending :=
  let categoryExpenses := List.filter (inScope b) expenses in
  let actualSpent := sumOfAmounts categoryExpenses in
  let remaining := (Budget.monthlyLimit b - actualSpent)%Qc in
  let percentageUsed :=
    num_mul (num_div (Fin actualSpent) (Fin (Budget.monthlyLimit b)))
            (Fin (Qc_of_Z 100)) in
  let isOverBudget := Qc_gtb actualSpent (Budget.monthlyLimit b) in
  {| budget := b;
     actualSpent := actualSpent;
     remaining := remaining;
     percentageUsed := Math_min percentageUsed (Fin (Qc_of_Z 100));
     isOverBudget := isOverBudget |}.

Definition month (a : BudgetWithSpending) : string := Budget.month (budget a).

(** The comparator of [sort]. *)
Definition compareForDisplay (a b : BudgetWithSpending) : num :=
  if negb (String.eqb (month a) (month b)) then
    localeCompare (month b) (month a)
  else if negb (Bool.eqb (isOverBudget a) (isOverBudget b)) then
    (if isOverBudget a then Fin (- 1)%Qc else Fin 1%Qc)
  else
    num_sub (percentageUsed b) (percentageUsed a).

(** The callback of [filter]. *)
Definition monthShown (filterMonth : string) (b : Budget) : bool :=
  str_not filterMonth || String.eqb (Budget.month b) filterMonth.

Definition rank (l : list BudgetWithSpending) : list BudgetWithSpending :=
  Array_sort compareForDisplay l.

(** [budgetsWithSpending]: the memoised computation. *)
Definition budgetsWithSpending
    (budgets : queryData Budget) (expenses : queryData Expense)
    (filterMonth : string) : completion (list BudgetWithSpending) :=
  let budgets := orEmpty budgets in
  let expenses := orEmpty expenses in
  if js_not budgets || js_not expenses then Return []
  else
    match budgets with
    | Arr bs =>
        let shown := List.filter (monthShown filterMonth) bs in
        match expenses, shown with
        | Arr es, _ => Return (rank (map (progress es) shown))
        | _, [] => Return (rank [])
        | _, _ :: _ => Throw TypeError       (* [expenses.filter] *)
        end
    | _ => Throw TypeError                   (* [budgets.filter] *)
    end.

End BudgetList.

(** ** Report page ([pages/report-page.tsx]) *)

Module Report.

(** The three pieces of filter state; the empty string stands for a
    criterion that is not given. *)
Record Filters : Type := {
  startDate : string;
  endDate : string;
  selectedCategory : string
}.

(** The callback of [filter]. *)
Definition keeps (f : Filters) (expense : Expense) : bool :=
  let dateMatch :=
    (str_not (startDate f) || str_ge (Expense.date expense) (startDate f))
    && (str_not (endDate f) || str_le (Expense.date expense) (endDate f)) in
  let categoryMatch :=
    str_not (selectedCategory f)
    || String.eqb (Expense.category expense) (selectedCategory f) in
  dateMatch && categoryMatch.

(** [filteredExpenses] *)
Definition filteredExpenses (expenses : queryData Expense) (f : Filters)
  : completion (list Expense) :=
  match orEmpty expenses with
  | Arr es => Return (List.filter (keeps f) es)
  | _ => Return []
  end.

Definition monthNames : list string :=
  ["Jan"; "Feb"; "Mar"; "Apr"; "May"; "Jun";
   "Jul"; "Aug"; "Sep"; "Oct"; "Nov"; "Dec"].

Definition yearMonth (yyyy mm : string) : option (N * N) :=
  match digits yyyy 0, digits mm 0 with
  | Some y, Some m => if (1 <=? m)%N && (m <=? 12)%N then Some (y, m) else None
  | _, _ => None
  end.

(** The year and month [new Date(s)] reads from a string of the
    date-only forms [YYYY-MM-01] and [YYYY-MM].  Any other string is taken
    to give an invalid date (what an engine makes of it is left to its
    fallback parser). *)
Definition parseDate (s : string) : option (N * N) :=
  match s with
  | String y1 (String y2 (String y3 (String y4 (String "-"
      (String m1 (String m2 rest)))))) =>
      let yyyy := String y1 (String y2 (String y3 (String y4 EmptyString))) in
      let mm := String m1 (String m2 EmptyString) in
      match rest with
      | EmptyString => yearMonth yyyy mm
      | String "-" (String "0" (String "1" EmptyString)) => yearMonth yyyy mm
      | _ => None
      end
  | _ => None
  end.

(** [new Date(key + '-01').toLocaleDateString('en-US',
    { month: 'short', year: 'numeric' })].  The date-only form is read as
    midnight UTC and printed in local time: where local time is behind
    UTC that instant still belongs to the previous month.  Years before 1
    are outside the model. *)
Definition monthLabel (behindUTC : bool) (key : string) : string :=
  match parseDate (String.append key "-01") with
  | Some (y, m) =>
      let '(y', m') :=
        if behindUTC
        then (if (m =? 1)%N then ((y - 1)%N, 12%N) else (y, (m - 1)%N))
        else (y, m) in
      String.append (nth (N.to_nat m' - 1) monthNames "")
        (String.append " " (NilEmpty.string_of_uint (N.to_uint y')))
  | None => "Invalid Date"
  end.

Definition totalSpent (filteredExpenses : list Expense) : Qc :=
  sumOfAmounts filteredExpenses.

Definition averageExpense (filteredExpenses : list Expense) : Qc :=
  (totalSpent filteredExpenses
   / Qc_of_Z (Z.of_nat (List.length filteredExpenses)))%Qc.

Definition categorySpending (filteredExpenses : list Expense) : jsobject Qc :=
  spendingByCategory filteredExpenses.

Definition categoryData (filteredExpenses : list Expense) : list ChartData :=
  Array_sort (fun a b => Fin (value b - value a)%Qc)
             (map toChartData (Object_entries (categorySpending filteredExpenses))).

Definition monthlySpending (filteredExpenses : list Expense) : jsobject Qc :=
  fold_left (fun acc expense =>
               let month := substring 0 7 (Expense.date expense) in
               addTo acc month (Expense.amount expense))
            filteredExpenses [].

Definition monthlyData (behindUTC : bool) (filteredExpenses : list Expense)
  : list ChartData :=
  Array_sort (fun a b => localeCompare (name a) (name b))
             (map (fun kv => {| name := monthLabel behindUTC (fst kv);
                                value := snd kv |})
                  (Object_entries (monthlySpending filteredExpenses))).

Record Metrics : Type := {
  m_totalSpent : Qc;
  m_averageExpense : Qc;
  m_expenseCount : nat;
  m_categoryData : list ChartData;
  m_monthlyData : list ChartData;
  m_topCategory : option ChartData
}.

(** [reportMetrics]; [None] is [null].  The average divides by a length
    that is not zero here. *)
Definition reportMetrics (behindUTC : bool) (filteredExpenses : list Expense)
  : option Metrics :=
  match filteredExpenses with
  | [] => None
  | _ :: _ =>
      Some {| m_totalSpent := totalSpent filteredExpenses;
              m_averageExpense := averageExpense filteredExpenses;
              m_expenseCount := List.length filteredExpenses;
              m_categoryData := categoryData filteredExpenses;
              m_monthlyData := monthlyData behindUTC filteredExpenses;
              m_topCategory := head (categoryData filteredExpenses) |}
  end.

(** The two memoised values of the page in sequence. *)
Definition pageMetrics (behindUTC : bool) (expenses : queryData Expense)
    (f : Filters) : completion (option Metrics) :=
  match filteredExpenses expenses f with
  | Return kept => Return (reportMetrics behindUTC kept)
  | Throw e => Throw e
  end.

End Report.

(** ** Dashboard page ([pages/dashboard-page.tsx]) *)

Module Dashboard.

Record Metrics : Type := {
  totalMonthlySpend : Qc;
  totalBudget : Qc;
  remainingBudget : Qc;
  categoryData : list ChartData;
  categoriesCount : nat;
  recentExpenses : list Expense
}.

Definition currentMonthExpenses (expenses : list Expense) (selectedMonth : string)
  : list Expense :=
  List.filter (fun expense => startsWith (Expense.date expense) selectedMonth)
              expenses.

Definition currentMonthBudgets (budgets : list Budget) (selectedMonth : string)
  : list Budget :=
  List.filter (fun b => String.eqb (Budget.month b) selectedMonth) budgets.

(** [new Set(expenses.map(expense => expense.category))] *)
Definition uniqueCategories (expenses : list Expense) : gset string :=
  list_to_set (map Expense.category expenses).

Definition metrics (expenses : list Expense) (budgets : list Budget)
    (selectedMonth : string) : Metrics :=
  let current := currentMonthExpenses expenses selectedMonth in
  let totalMonthlySpend := sumOfAmounts current in
  let totalBudget :=
    fold_left (fun sum b => (sum + Budget.monthlyLimit b)%Qc)
              (currentMonthBudgets budgets selectedMonth) 0%Qc in
  {| totalMonthlySpend := totalMonthlySpend;
     totalBudget := totalBudget;
     remainingBudget := (totalBudget - totalMonthlySpend)%Qc;
     categoryData := map toChartData (Object_entries (spendingByCategory current));
     categoriesCount := size (uniqueCategories expenses);
     recentExpenses := firstn 5 expenses |}.

(** [dashboardMetrics]; [None] is [null]. *)
Definition dashboardMetrics
    (expenses : queryData Expense) (budgets : queryData Budget)
    (selectedMonth : string) : completion (option Metrics) :=
  let expenses := orEmpty expenses in
  let budgets := orEmpty budgets in
  if js_not expenses || js_not budgets
     || negb (isArray expenses) || negb (isArray budgets)
  then Return None
  else
    match expenses, budgets with
    | Arr es, Arr bs => Return (Some (metrics es bs selectedMonth))
    | _, _ => Return None
    end.

End Dashboard.

(** * Sample data *)

Definition expense (amount : Z) (category date : string) : Expense :=
  {| Expense.id := None; Expense.description := "";
     Expense.amount := Qc_of_Z amount;
     Expense.category := category; Expense.date := date |}.

Definition shown (l : list ChartData) : list (string * Q) :=
  map (fun d => (name d, this (value d))) l.

Definition budgetFor (category month : string) (monthlyLimit : Z) : Budget :=
  {| Budget.id := None; Budget.category := category;
     Budget.monthlyLimit := Qc_of_Z monthlyLimit; Budget.month := month;
     Budget.spent := 0%Qc; Budget.createdAt := None |}.

Definition demoBudgets : list Budget :=
  [budgetFor "Food" "2025-08" 100; budgetFor "Transport" "2025-08" 50;
   budgetFor "Food" "2025-09" 200; budgetFor "Fun" "2025-08" 40].

Definition demoExpenses : list Expense :=
  [expense 150 "Food" "2025-08-03"; expense 20 "Transport" "2025-08-04";
   expense 10 "Food" "2025-09-01"; expense 30 "Fun" "2025-08-09"].

Definition specExample : list Expense :=
  [expense 10 "Food" "2025-08-01"; expense 20 "Food" "2025-08-15";
   expense 5 "Transport" "2025-08-02"].

(** Two categories named by numerals, with equal sums. *)
Definition numberedCategories : list Expense :=
  [expense 5 "2" "2025-08-01"; expense 5 "1" "2025-08-02"].

(** Expenses of June and of August, and of two months across a new year. *)
Definition summerExpenses : list Expense :=
  [expense 10 "Food" "2025-06-10"; expense 20 "Food" "2025-08-05"].

Definition newYearExpenses : list Expense :=
  [expense 10 "Food" "2024-12-10"; expense 20 "Food" "2025-01-10"].

Definition shownObject (o : jsobject Qc) : list (string * Q) :=
  map (fun kv => (fst kv, this (snd kv))) o.

(** * Vocabulary of the specification *)

(** The sum of a list of numbers, and of the amounts of a list of expenses. *)
Definition total (l : list Qc) : Qc := fold_right Qcplus 0%Qc l.

Definition amountTotal (expenses : list Expense) : Qc :=
  total (map Expense.amount expenses).

(** An expense is in the scope of a budget: same category, and a date that
    starts with the month of the budget. *)
Definition InScope (b : Budget) (e : Expense) : Prop :=
  Expense.category e = Budget.category b
  /\ exists rest, Expense.date e = String.append (Budget.month b) rest.

(** A comparator is consistent on the values satisfying [P] when swapping
    its arguments flips its sign and "not after" is transitive. *)
Record Consistent {A} (P : A -> Prop) (cmp : A -> A -> comparison) : Prop := {
  cmp_antisym : forall a b, P a -> P b -> cmp b a = CompOpp (cmp a b);
  cmp_trans : forall a b c, P a -> P b -> P c ->
                cmp a b <> Gt -> cmp b c <> Gt -> cmp a c <> Gt
}.

Definition isEq (c : comparison) : bool :=
  match c with Eq => true | _ => false end.

(** The order of a stably sorted array, [R] being the order of the input: a
    value stands before another when the comparator puts it strictly first,
    or when the comparator ties them and [R] had them in this order. *)
Definition before {A} (cmp : A -> A -> comparison) (R : A -> A -> Prop)
    (a b : A) : Prop :=
  cmp a b = Lt \/ (cmp a b = Eq /\ R a b).

(** Two comparators in sequence: the second decides where the first ties. *)
Definition lex {A} (c1 c2 : A -> A -> comparison) (a b : A) : comparison :=
  match c1 a b with Eq => c2 a b | r => r end.

(** The order of numbers, infinities included; [NaN] is not ordered. *)
Definition num_compare (x y : num) : comparison :=
  match x, y with
  | Fin a, Fin b => (a ?= b)%Qc
  | NaN, _ | _, NaN => Eq
  | PInf, PInf | NInf, NInf => Eq
  | PInf, _ | _, NInf => Gt
  | NInf, _ | _, PInf => Lt
  end.

Definition num_eqb (x y : num) : bool :=
  match x, y with
  | Fin a, Fin b => if Qc_eq_dec a b then true else false
  | PInf, PInf | NInf, NInf | NaN, NaN => true
  | _, _ => false
  end.

(** Over budget comes first. *)
Definition overFirst (a b : bool) : comparison :=
  match a, b with
  | true, false => Lt
  | false, true => Gt
  | _, _ => Eq
  end.

(** The ranking of the budget list, key by key: the later month first, then
    over budget before under budget, then the larger percentage first. *)
Definition rankCmp : BudgetList.BudgetWithSpending ->
                     BudgetList.BudgetWithSpending -> comparison :=
  lex (fun a b => str_compare (BudgetList.month b) (BudgetList.month a))
      (lex (fun a b => overFirst (BudgetList.isOverBudget a)
                                 (BudgetList.isOverBudget b))
           (fun a b => num_compare (BudgetList.percentageUsed b)
                                   (BudgetList.percentageUsed a))).

(** [a] ranks strictly before [b]. *)
Definition ranksBefore (a b : BudgetList.BudgetWithSpending) : Prop :=
  str_compare (BudgetList.month b) (BudgetList.month a) = Lt
  \/ (BudgetList.month a = BudgetList.month b
      /\ BudgetList.isOverBudget a = true /\ BudgetList.isOverBudget b = false)
  \/ (BudgetList.month a = BudgetList.month b
      /\ BudgetList.isOverBudget a = BudgetList.isOverBudget b
      /\ num_compare (BudgetList.percentageUsed b) (BudgetList.percentageUsed a) = Lt).

(** [a] and [b] agree on the three keys. *)
Definition tied (a b : BudgetList.BudgetWithSpending) : Prop :=
  BudgetList.month a = BudgetList.month b
  /\ BudgetList.isOverBudget a = BudgetList.isOverBudget b
  /\ BudgetList.percentageUsed a = BudgetList.percentageUsed b.

Definition tiedb (a b : BudgetList.BudgetWithSpending) : bool :=
  String.eqb (BudgetList.month a) (BudgetList.month b)
  && Bool.eqb (BudgetList.isOverBudget a) (BudgetList.isOverBudget b)
  && num_eqb (BudgetList.percentageUsed a) (BudgetList.percentageUsed b).

Definition hasPercentage (a : BudgetList.BudgetWithSpending) : Prop :=
  BudgetList.percentageUsed a <> NaN.

(** What the report's filter asks of an expense: each criterion that is
    given (not the empty string) must hold. *)
Definition Keeps (f : Report.Filters) (e : Expense) : Prop :=
  (Report.startDate f <> "" ->
     str_compare (Expense.date e) (Report.startDate f) <> Lt)
  /\ (Report.endDate f <> "" ->
        str_compare (Expense.date e) (Report.endDate f) <> Gt)
  /\ (Report.selectedCategory f <> "" ->
        Expense.category e = Report.selectedCategory f).

Instance Keeps_dec f e : Decision (Keeps f e).
Proof. unfold Keeps. apply _. Defined.

Definition noFilters : Report.Filters :=
  {| Report.startDate := ""; Report.endDate := ""; Report.selectedCategory := "" |}.

(** The category count a dashboard result shows, if it shows one. *)
Definition countShown (r : completion (option Dashboard.Metrics)) : option nat :=
  match r with
  | Return (Some m) => Some (Dashboard.categoriesCount m)
  | _ => None
  end.

(** The distinct values of a list, in the order of their first occurrence. *)
Fixpoint firsts (l : list string) : list string :=
  match l with
  | [] => []
  | x :: l' => x :: List.filter (fun y => negb (String.eqb y x)) (firsts l')
  end.

(** [x] occurs in [l], and before any occurrence of [y]. *)
Fixpoint firstOf (x y : string) (l : list string) : bool :=
  match l with
  | [] => false
  | c :: l' =>
      if String.eqb c x then true
      else if String.eqb c y then false
      else firstOf x y l'
  end.

Definition inb (k : string) (l : list string) : bool :=
  existsb (String.eqb k) l.

(** The sum of the amounts of the expenses of one category. *)
Definition categoryTotal (c : string) (expenses : list Expense) : Qc :=
  amountTotal (List.filter (fun e => String.eqb (Expense.category e) c) expenses).

(** The order in which [Object.entries] lists two keys of an object whose
    keys were created in the order of [cats]: array indices first, in
    ascending order, then the other keys by first occurrence. *)
Definition entryOrder (cats : list string) (x y : string) : Prop :=
  match arrayIndex x, arrayIndex y with
  | Some i, Some j => (i <= j)%N
  | Some _, None => True
  | None, Some _ => False
  | None, None => firstOf x y cats = true
  end.

(** Larger value first; equal values in the order [tie] of their names. *)
Definition byValueThen (tie : string -> string -> Prop) (a b : ChartData) : Prop :=
  (value b < value a)%Qc \/ (value a = value b /\ tie (name a) (name b)).

(** A reducer that files amounts under keys, as the report and the
    dashboard do with categories and months, and the sum filed under one
    key. *)
Definition grouped {A} (key : A -> string) (amt : A -> Qc) (l : list A)
  : jsobject Qc :=
  fold_left (fun acc x => addTo acc (key x) (amt x)) l [].

Definition groupTotal {A} (key : A -> string) (amt : A -> Qc)
    (k : string) (l : list A) : Qc :=
  total (map amt (List.filter (fun x => String.eqb (key x) k) l)).

(** * The rest of the pages

    The computations of the cited files that the statements above do not
    reach: the month selectors, the indicators of the dashboard and of the
    budget list, the expense list, the colours of the chart and the month
    options of the budget form. *)

(** [-x] *)
Definition num_neg (x : num) : num :=
  match x with
  | Fin q => Fin (- q)%Qc
  | PInf => NInf
  | NInf => PInf
  | NaN => NaN
  end.

(** [a < b] on finite numbers *)
Definition Qc_ltb (a b : Qc) : bool :=
  match (a ?= b)%Qc with Lt => true | _ => false end.

(** Where local time stands with respect to UTC. *)
Inductive zone : Type := BehindUTC | AtUTC | AheadOfUTC.

Definition isBehind (z : zone) : bool :=
  match z with BehindUTC => true | _ => false end.

Definition monthNamesLong : list string :=
  ["January"; "February"; "March"; "April"; "May"; "June"; "July";
   "August"; "September"; "October"; "November"; "December"].

(** The month before a month (months count from 1). *)
Definition prevMonth (ym : N * N) : N * N :=
  let '(y, m) := ym in
  if (m =? 1)%N then ((y - 1)%N, 12%N) else (y, (m - 1)%N).

(** What [toLocaleDateString('en-US', { month: 'long', year: 'numeric' })]
    prints for a local date of the given year and month. *)
Definition longMonthName (ym : N * N) : string :=
  let '(y, m) := ym in
  String.append (nth (N.to_nat m - 1) monthNamesLong "")
    (String.append " " (NilEmpty.string_of_uint (N.to_uint y))).

(** [new Date(key + '-01').toLocaleDateString('en-US',
    { month: 'long', year: 'numeric' })], as [Report.monthLabel] with the
    long names. *)
Definition longMonthLabel (behindUTC : bool) (key : string) : string :=
  match Report.parseDate (String.append key "-01") with
  | Some ym => longMonthName (if behindUTC then prevMonth ym else ym)
  | None => "Invalid Date"
  end.

(** ** The month selectors ([dashboard-page.tsx], [budget-list.tsx]) *)

Module MonthOption.
Record t : Type := { value : string; label : string }.
End MonthOption.
Abbreviation MonthOption := MonthOption.t.

(** [[...new Set(months)].sort().reverse()]: the distinct values, by the
    default comparison of strings, last first. *)
Definition uniqueMonths (months : list string) : list string :=
  rev (sortWith str_compare (firsts months)).

Definition monthOptionsOf (behindUTC : bool) (months : list string)
  : list MonthOption :=
  map (fun month => {| MonthOption.value := month;
                       MonthOption.label := longMonthLabel behindUTC month |})
      (uniqueMonths months).

(** [monthOptions] of the dashboard; [expenses.map] is not guarded. *)
Definition dashboardMonthOptions (behindUTC : bool)
    (expenses : queryData Expense) : completion (list MonthOption) :=
  match orEmpty expenses with
  | Arr es =>
      Return (monthOptionsOf behindUTC
                (map (fun expense => substring 0 7 (Expense.date expense)) es))
  | _ => Throw TypeError
  end.

(** [monthOptions] of the budget list; [budgets.map] is not guarded. *)
Definition budgetMonthOptions (behindUTC : bool)
    (budgets : queryData Budget) : completion (list MonthOption) :=
  match orEmpty budgets with
  | Arr bs => Return (monthOptionsOf behindUTC (map Budget.month bs))
  | _ => Throw TypeError
  end.

(** [const isOverBudget = dashboardMetrics.remainingBudget < 0] *)
Definition dashboardIsOverBudget (m : Dashboard.Metrics) : bool :=
  Qc_ltb (Dashboard.remainingBudget m) 0%Qc.

(** [budget.remaining < 0], which the budget list marks with "over". *)
Definition showsOver (r : BudgetList.BudgetWithSpending) : bool :=
  Qc_ltb (BudgetList.remaining r) 0%Qc.

(** ** The expense list ([components/expense-list.tsx]) *)

Module ExpenseList.

Inductive SortBy : Type := ByDate | ByAmount | ByDescription.
Inductive SortOrder : Type := Asc | Desc.

(** [toLowerCase] on the character codes below 256: the letters A to Z and
    the accented capitals (all of 192 to 222 but the multiplication sign). *)
Definition lowerChar (c : ascii) : ascii :=
  let n := N_of_ascii c in
  if ((65 <=? n)%N && (n <=? 90)%N)
     || ((192 <=? n)%N && (n <=? 222)%N && negb (n =? 215)%N)
  then ascii_of_N (n + 32)
  else c.

Fixpoint toLowerCase (s : string) : string :=
  match s with
  | EmptyString => EmptyString
  | String c s' => String (lowerChar c) (toLowerCase s')
  end.

(** [s.includes(t)] *)
Fixpoint includes (s t : string) : bool :=
  String.prefix t s
  || match s with
     | EmptyString => false
     | String _ s' => includes s' t
     end.

(** The callback of [filter]. *)
Definition matches (searchTerm filterCategory : string) (expense : Expense)
  : bool :=
  let matchesSearch :=
    includes (toLowerCase (Expense.description expense))
             (toLowerCase searchTerm) in
  let matchesCategory :=
    str_not filterCategory
    || String.eqb (Expense.category expense) filterCategory in
  matchesSearch && matchesCategory.

Section Platform.
(** [new Date(s).getTime()] and the collation of descriptions, which the
    list takes from the browser. *)
Variable getTime : string -> num.
Variable collate : string -> string -> num.

(** The comparator of [sort]. *)
Definition compare (sortBy : SortBy) (sortOrder : SortOrder) (a b : Expense)
  : num :=
  let comparison :=
    match sortBy with
    | ByDate => num_sub (getTime (Expense.date a)) (getTime (Expense.date b))
    | ByAmount => Fin (Expense.amount a - Expense.amount b)%Qc
    | ByDescription =>
        collate (Expense.description a) (Expense.description b)
    end in
  match sortOrder with
  | Asc => comparison
  | Desc => num_neg comparison
  end.

(** [filteredAndSortedExpenses]; [expenses.filter] is not guarded. *)
Definition filteredAndSortedExpenses (expenses : queryData Expense)
    (searchTerm filterCategory : string)
    (sortBy : SortBy) (sortOrder : SortOrder) : completion (list Expense) :=
  match orEmpty expenses with
  | Arr es =>
      Return (Array_sort (compare sortBy sortOrder)
                         (List.filter (matches searchTerm filterCategory) es))
  | _ => Throw TypeError
  end.
End Platform.

End ExpenseList.

(** ** The chart ([components/chart.tsx]) *)

Module Chart.

Record Entry : Type := { data : ChartData; color : option string }.

Definition COLORS : list string :=
  ["#007A7A"; "#FFBF40"; "#10B981"; "#F59E0B";
   "#EF4444"; "#8B5CF6"; "#06B6D4"; "#84CC16"].

(** [entry.color || COLORS[index % COLORS.length]]; [None] is [undefined]. *)
Definition fill (entry : Entry) (index : nat) : option string :=
  match color entry with
  | Some c =>
      if str_not c then nth_error COLORS (index mod List.length COLORS)
      else Some c
  | None => nth_error COLORS (index mod List.length COLORS)
  end.

(** [data.map((entry, index) => <Cell fill=... />)] *)
Fixpoint cellsFrom (index : nat) (entries : list Entry) : list (option string) :=
  match entries with
  | [] => []
  | entry :: rest => fill entry index :: cellsFrom (S index) rest
  end.

Inductive ChartType : Type := pie | bar.

Inductive view : Type :=
  | NoData                                 (* "No data available" *)
  | PieChart (cells : list (option string))
  | BarChart (cells : list (option string)).

(** [Chart({ data, type })]; a missing [data] is [None]. *)
Definition Chart (data : option (list Entry)) (type : ChartType) : view :=
  match data with
  | None | Some [] => NoData
  | Some entries =>
      match type with
      | pie => PieChart (cellsFrom 0 entries)
      | bar => BarChart (cellsFrom 0 entries)
      end
  end.

(** The aggregations set no colour. *)
Definition plain (d : ChartData) : Entry := {| data := d; color := None |}.

End Chart.

(** ** The month options of the budget form ([BudgetForm]) *)

Module BudgetForm.

(** [new Date(year, monthIndex, 1)]: the year and the month (from 1) of
    that local date; a month index beyond 11 runs into the next years. *)
Definition firstOfMonth (year monthIndex : N) : N * N :=
  ((year + monthIndex / 12)%N, (monthIndex mod 12 + 1)%N).

Definition digitChar (d : N) : ascii := ascii_of_N (48 + d).

Definition pad2 (n : N) : string :=
  String (digitChar (n / 10 mod 10)) (String (digitChar (n mod 10)) EmptyString).

Definition pad4 (n : N) : string :=
  String (digitChar (n / 1000 mod 10))
    (String (digitChar (n / 100 mod 10)) (pad2 n)).

(** [date.toISOString().slice(0, 7)] for local midnight of the first day of
    a month, in years 0 to 9999: the month of that instant in UTC.  Ahead
    of UTC the instant falls on the last day of the month before. *)
Definition isoMonth (z : zone) (ym : N * N) : string :=
  let '(y, m) := match z with AheadOfUTC => prevMonth ym | _ => ym end in
  String.append (pad4 y) (String "-" (pad2 m)).

(** [generateMonthOptions()], the current local date being in month
    [monthIndex] (from 0) of [year]. *)
Definition generateMonthOptions (z : zone) (year monthIndex : N)
  : list MonthOption :=
  map (fun i =>
         let date := firstOfMonth year (monthIndex + i) in
         {| MonthOption.value := isoMonth z date;
            MonthOption.label := longMonthName date |})
      (map N.of_nat (seq 0 12)).

End BudgetForm.

(** ** Further vocabulary and sample data *)

(** A year and month that the four-digit date forms can carry. *)
Definition validMonth (ym : N * N) : Prop :=
  (1 <= fst ym < 10000)%N /\ (1 <= snd ym <= 12)%N.

(** A clock for the examples: the digits of a date read as one number,
    which orders dates of the form [YYYY-MM-DD] as their time stamps do. *)
Fixpoint digitsOnly (s : string) (acc : N) : N :=
  match s with
  | EmptyString => acc
  | String c s' =>
      match digit c with
      | Some d => digitsOnly s' (10 * acc + d)%N
      | None => digitsOnly s' acc
      end
  end.

Definition sampleClock (s : string) : num :=
  Fin (Qc_of_Z (Z.of_N (digitsOnly s 0))).

(** An expense under another description. *)
Definition describedAs (description : string) (e : Expense) : Expense :=
  {| Expense.id := Expense.id e; Expense.description := description;
     Expense.amount := Expense.amount e; Expense.category := Expense.category e;
     Expense.date := Expense.date e |}.

(** * Numbers and strings: basic facts *)

Ltac qc_eq := apply Qc_is_canon; vm_compute; reflexivity.

Lemma sgn_Gt q : sgn q = Gt <-> (0 < q)%Qc.
Proof. unfold sgn. symmetry. apply (Qcgt_alt q 0%Qc). Qed.

Lemma sgn_Lt q : sgn q = Lt <-> (q < 0)%Qc.
Proof. unfold sgn. symmetry. apply Qclt_alt. Qed.

Lemma sgn_Eq q : sgn q = Eq <-> q = 0%Qc.
Proof. unfold sgn. symmetry. apply Qceq_alt. Qed.

Lemma Qc_gtb_true a b : Qc_gtb a b = true <-> (b < a)%Qc.
Proof.
  unfold Qc_gtb. rewrite (Qcgt_alt a b).
  destruct (a ?= b)%Qc; split; congruence.
Qed.

Lemma Qcmin_le_r a b : (Qcmin a b <= b)%Qc.
Proof.
  unfold Qcmin. destruct (a ?= b)%Qc eqn:E.
  - apply Qcle_alt. congruence.
  - apply Qcle_alt. congruence.
  - apply Qcle_refl.
Qed.

Lemma fold_left_Qcplus {A} (f : A -> Qc) (l : list A) (a : Qc) :
  fold_left (fun sum x => (sum + f x)%Qc) l a = (a + total (map f l))%Qc.
Proof.
  revert a. induction l as [|x l IH]; intros a; simpl.
  - ring.
  - rewrite IH. ring.
Qed.

Lemma sumOfAmounts_total expenses : sumOfAmounts expenses = amountTotal expenses.
Proof.
  unfold sumOfAmounts, amountTotal. rewrite fold_left_Qcplus. ring.
Qed.

Lemma append_String a p r :
  String.append (String a p) r = String a (String.append p r).
Proof. reflexivity. Qed.

Lemma prefix_append p s :
  String.prefix p s = true <-> exists rest, s = String.append p rest.
Proof.
  revert s. induction p as [|a p IH]; intros s.
  - destruct s; simpl; split; eauto.
  - setoid_rewrite append_String.
    destruct s as [|b s]; cbn [String.prefix].
    + split; [discriminate | intros [rest H]; discriminate].
    + destruct (ascii_dec a b) as [->|Hne].
      * rewrite IH. split; intros [rest H]; exists rest; congruence.
      * split; [discriminate | intros [rest H]; congruence].
Qed.

Lemma inScope_spec b e : BudgetList.inScope b e = true <-> InScope b e.
Proof.
  unfold BudgetList.inScope, InScope, startsWith.
  rewrite andb_true_iff, String.eqb_eq, prefix_append. reflexivity.
Qed.

(** * Budget progress *)

Lemma progress_percentage_nonzero expenses b :
  Budget.monthlyLimit b <> 0%Qc ->
  BudgetList.percentageUsed (BudgetList.progress expenses b)
  = Fin (Qcmin (BudgetList.actualSpent (BudgetList.progress expenses b)
                / Budget.monthlyLimit b * Qc_of_Z 100)
               (Qc_of_Z 100)).
Proof.
  intros Hne. simpl. unfold num_div.
  destruct (sgn (Budget.monthlyLimit b)) eqn:E; try reflexivity.
  apply sgn_Eq in E. contradiction.
Qed.



(** With a limit of zero the quotient is [Infinity], [-Infinity] or [NaN]. *)
Lemma progress_percentage_zero expenses b :
  Budget.monthlyLimit b = 0%Qc ->
  BudgetList.percentageUsed (BudgetList.progress expenses b)
  = match sgn (BudgetList.actualSpent (BudgetList.progress expenses b)) with
    | Gt => Fin (Qc_of_Z 100)
    | Eq => NaN
    | Lt => NInf
    end.
Proof.
  intros H0. simpl. rewrite H0. unfold num_div.
  change (sgn 0%Qc) with Eq. cbv iota.
  destruct (sgn (sumOfAmounts (List.filter (BudgetList.inScope b) expenses)));
    reflexivity.
Qed.

(** C5, as the code has it.  For a budget whose limit is zero,
    [isOverBudget] tells whether [actualSpent > 0]; the division by zero is
    carried out and raises nothing, and [percentageUsed] is 100 when
    something was spent ([Infinity], clamped by [Math.min]), [NaN] when
    nothing was spent, and [-Infinity] when the amounts sum to a negative
    number. *)
Theorem C5_zero_limit_progress (b : Budget) (expenses : list Expense) :
  Budget.monthlyLimit b = 0%Qc ->
  let r := BudgetList.progress expenses b in
  (BudgetList.isOverBudget r = true <-> (0 < BudgetList.actualSpent r)%Qc)
  /\ ((0 < BudgetList.actualSpent r)%Qc ->
      BudgetList.percentageUsed r = Fin (Qc_of_Z 100))
  /\ (BudgetList.actualSpent r = 0%Qc -> BudgetList.percentageUsed r = NaN)
  /\ ((BudgetList.actualSpent r < 0)%Qc -> BudgetList.percentageUsed r = NInf).
Proof.
  intros H0 r.
  assert (Hpct := progress_percentage_zero expenses b H0). fold r in Hpct.
  split; [|split; [|split]].
  - change (BudgetList.isOverBudget r)
      with (Qc_gtb (BudgetList.actualSpent r) (Budget.monthlyLimit b)).
    rewrite H0. apply Qc_gtb_true.
  - intros H. apply sgn_Gt in H. rewrite Hpct, H. reflexivity.
  - intros H. apply sgn_Eq in H. rewrite Hpct, H. reflexivity.
  - intros H. apply sgn_Lt in H. rewrite Hpct, H. reflexivity.
Qed.

Lemma C5_zero_limit_progress_witness :
  let b := budgetFor "Food" "2025-08" 0 in
  let r := BudgetList.progress [expense 50 "Food" "2025-08-03"] b in
  BudgetList.isOverBudget r = true
  /\ BudgetList.percentageUsed r = Fin (Qc_of_Z 100).
Proof.
  intros b r.
  assert (H0 : Budget.monthlyLimit b = 0%Qc) by qc_eq.
  destruct (C5_zero_limit_progress b [expense 50 "Food" "2025-08-03"] H0)
    as (Hover & Hpct & _).
  assert (Hspent : (0 < BudgetList.actualSpent r)%Qc) by reflexivity.
  split; [apply Hover, Hspent | apply Hpct, Hspent].
Defined.

(** C5 as stated fails: with a limit of zero the percentage is 100 once
    something was spent, and [NaN] when nothing was. *)
Lemma C5_zero_limit_counterexample :
  let b := budgetFor "Food" "2025-08" 0 in
  Budget.monthlyLimit b = 0%Qc
  /\ BudgetList.percentageUsed
       (BudgetList.progress [expense 50 "Food" "2025-08-03"] b) <> Fin 0%Qc
  /\ BudgetList.percentageUsed (BudgetList.progress [] b) <> Fin 0%Qc.
Proof.
  intros b.
  assert (H0 : Budget.monthlyLimit b = 0%Qc) by qc_eq.
  split; [exact H0|]. split.
  - rewrite (progress_percentage_zero _ b H0).
    change (sgn _) with Gt. cbv iota. intros H. inversion H.
  - rewrite (progress_percentage_zero _ b H0).
    change (sgn _) with Eq. cbv iota. discriminate.
Qed.

(** * Sorting with a consistent comparator *)

Section SortFacts.
Context {A : Type} (P : A -> Prop) (cmp : A -> A -> comparison).
Hypothesis consistent : Consistent P cmp.

Lemma cmp_Eq_sym a b : P a -> P b -> cmp a b = Eq -> cmp b a = Eq.
Proof.
  intros Ha Hb H. rewrite (cmp_antisym P cmp consistent a b Ha Hb), H.
  reflexivity.
Qed.

Lemma cmp_Gt_Lt a b : P a -> P b -> cmp a b = Gt -> cmp b a = Lt.
Proof.
  intros Ha Hb H. rewrite (cmp_antisym P cmp consistent a b Ha Hb), H.
  reflexivity.
Qed.

(** Values that compare equal compare alike with every third value. *)
Lemma cmp_Eq_congr a b x :
  P a -> P b -> P x -> cmp a b = Eq -> cmp a x = cmp b x.
Proof.
  intros Ha Hb Hx Hab.
  assert (Hba : cmp b a = Eq) by (apply cmp_Eq_sym; assumption).
  assert (T := cmp_trans P cmp consistent).
  assert (S := cmp_antisym P cmp consistent).
  assert (Hle_ab : cmp a b <> Gt) by congruence.
  assert (Hle_ba : cmp b a <> Gt) by congruence.
  destruct (cmp b x) eqn:Ebx.
  - assert (H1 : cmp a x <> Gt) by (apply (T a b x); congruence).
    assert (Exb : cmp x b = Eq) by (rewrite (S b x), Ebx; auto).
    assert (H2 : cmp x a <> Gt) by (apply (T x b a); congruence).
    rewrite (S a x) in H2 by assumption.
    destruct (cmp a x); simpl in H2; congruence.
  - assert (H1 : cmp a x <> Gt) by (apply (T a b x); congruence).
    destruct (cmp a x) eqn:Eax; try congruence.
    assert (H2 : cmp b x <> Gt) by (apply (T b a x); congruence).
    assert (Exa : cmp x a = Eq) by (rewrite (S a x), Eax; auto).
    assert (H3 : cmp x b <> Gt) by (apply (T x a b); congruence).
    rewrite (S b x), Ebx in H3 by assumption. simpl in H3. congruence.
  - assert (Exb : cmp x b = Lt) by (rewrite (S b x), Ebx; auto).
    assert (H2 : cmp x a <> Gt) by (apply (T x b a); congruence).
    rewrite (S a x) in H2 by assumption.
    destruct (cmp a x) eqn:Eax; simpl in H2; try congruence.
    assert (H3 : cmp b x <> Gt) by (apply (T b a x); congruence).
    congruence.
Qed.

Lemma insertSorted_perm x l : Permutation (insertSorted cmp x l) (x :: l).
Proof.
  induction l as [|y l IH]; simpl.
  - reflexivity.
  - destruct (cmp x y); try reflexivity.
    rewrite IH. apply perm_swap.
Qed.

Lemma sortWith_perm l : Permutation (sortWith cmp l) l.
Proof.
  induction l as [|x l IH]; simpl.
  - reflexivity.
  - rewrite insertSorted_perm. apply perm_skip, IH.
Qed.

Lemma sortWith_Forall (Q : A -> Prop) l :
  Forall Q l -> Forall Q (sortWith cmp l).
Proof.
  intros H. eapply Permutation_Forall; [|exact H].
  symmetry. apply sortWith_perm.
Qed.

(** ** Order and stability in one statement *)
Variable R : A -> A -> Prop.

Lemma insertSorted_before x l :
  P x -> Forall P l -> Forall (R x) l ->
  StronglySorted (before cmp R) l -> StronglySorted (before cmp R) (insertSorted cmp x l).
Proof.
  intros Hx HP HR Hs.
  induction l as [|y l IH]; simpl.
  - repeat constructor.
  - apply StronglySorted_inv in Hs as [Hs Hy].
    apply Forall_cons in HP as [Py HP].
    apply Forall_cons in HR as [Rxy HR].
    destruct (cmp x y) eqn:Exy.
    + constructor; [constructor; assumption|].
      constructor; [right; split; assumption|].
      rewrite Forall_forall in Hy, HP, HR |- *. intros z Hz.
      assert (Pz : P z) by auto.
      assert (Exz : cmp x z = cmp y z)
        by (apply cmp_Eq_congr; assumption).
      destruct (Hy z Hz) as [Hlt|[Heq _]].
      * left. congruence.
      * right. split; [congruence | auto].
    + constructor; [constructor; assumption|].
      constructor; [left; assumption|].
      rewrite Forall_forall in Hy, HP, HR |- *. intros z Hz.
      assert (Pz : P z) by auto.
      assert (Hle : cmp x z <> Gt).
      { apply (cmp_trans P cmp consistent x y z); try assumption.
        - congruence.
        - destruct (Hy z Hz) as [Hlt|[Heq _]]; congruence. }
      destruct (cmp x z) eqn:Exz; try congruence.
      * right. split; [assumption | auto].
      * left. assumption.
    + constructor.
      * apply IH; assumption.
      * eapply Permutation_Forall;
          [symmetry; apply insertSorted_perm|].
        constructor; [|assumption].
        left. apply cmp_Gt_Lt; assumption.
Qed.

Lemma sortWith_before l :
  Forall P l -> StronglySorted R l -> StronglySorted (before cmp R) (sortWith cmp l).
Proof.
  intros HP HR. induction l as [|x l IH]; simpl.
  - constructor.
  - apply Forall_cons in HP as [Px HP].
    apply StronglySorted_inv in HR as [HR Hx].
    apply insertSorted_before; auto.
    + apply sortWith_Forall, HP.
    + apply sortWith_Forall, Hx.
Qed.

(** ** Stability: the values tied with [a] keep the order of the input *)

Lemma insertSorted_tied a x l :
  P a -> P x -> Forall P l ->
  List.filter (fun y => isEq (cmp a y)) (insertSorted cmp x l)
  = List.filter (fun y => isEq (cmp a y)) (x :: l).
Proof.
  intros Pa Px HP. induction l as [|y l IH].
  - reflexivity.
  - apply Forall_cons in HP as [Py HP].
    cbn [insertSorted]. destruct (cmp x y) eqn:Exy; try reflexivity.
    cbn [List.filter]. rewrite (IH HP). cbn [List.filter].
    destruct (cmp a x) eqn:Eax; cbn [isEq]; try reflexivity.
    assert (Eay : cmp a y = cmp x y)
      by (apply cmp_Eq_congr; assumption).
    rewrite Eay, Exy. reflexivity.
Qed.

Lemma sortWith_tied a l :
  P a -> Forall P l ->
  List.filter (fun y => isEq (cmp a y)) (sortWith cmp l)
  = List.filter (fun y => isEq (cmp a y)) l.
Proof.
  intros Pa HP. induction l as [|x l IH].
  - reflexivity.
  - apply Forall_cons in HP as [Px HP].
    cbn [sortWith].
    rewrite insertSorted_tied by (try assumption; apply sortWith_Forall, HP).
    cbn [List.filter]. rewrite (IH HP). reflexivity.
Qed.
End SortFacts.

Lemma sortWith_ext {A} (c c' : A -> A -> comparison) l :
  (forall a b, c a b = c' a b) -> sortWith c l = sortWith c' l.
Proof.
  intros H. induction l as [|x l IH]; simpl; [reflexivity|].
  rewrite IH. generalize (sortWith c' l). intros s.
  induction s as [|y s IHs]; simpl; [reflexivity|].
  rewrite H, IHs. reflexivity.
Qed.

(** * Consistent comparators *)

Lemma Consistent_lex {A} (P : A -> Prop) c1 c2 :
  Consistent P c1 -> Consistent P c2 -> Consistent P (lex c1 c2).
Proof.
  intros H1 H2. split; unfold lex.
  - intros a b Pa Pb. rewrite (cmp_antisym P c1 H1 a b Pa Pb).
    destruct (c1 a b); simpl; try reflexivity.
    apply (cmp_antisym P c2 H2); assumption.
  - intros a b c Pa Pb Pc Hab Hbc.
    destruct (c1 a b) eqn:Eab; [| |congruence];
      destruct (c1 b c) eqn:Ebc; try congruence.
    + rewrite (cmp_Eq_congr P c1 H1 a b c Pa Pb Pc Eab), Ebc.
      apply (cmp_trans P c2 H2 a b c); assumption.
    + rewrite (cmp_Eq_congr P c1 H1 a b c Pa Pb Pc Eab), Ebc. discriminate.
    + assert (Ecb : c1 c b = Eq) by (apply (cmp_Eq_sym P c1 H1); assumption).
      assert (Eca : c1 c a = c1 b a)
        by (apply (cmp_Eq_congr P c1 H1); assumption).
      rewrite (cmp_antisym P c1 H1 a b Pa Pb), Eab in Eca. simpl in Eca.
      rewrite (cmp_antisym P c1 H1 c a Pc Pa), Eca. discriminate.
    + assert (Hac : c1 a c <> Gt)
        by (apply (cmp_trans P c1 H1 a b c); congruence).
      destruct (c1 a c) eqn:Eac; try congruence.
      exfalso.
      assert (Eca : c1 c a = Eq) by (apply (cmp_Eq_sym P c1 H1); assumption).
      assert (Ecb : c1 c b = c1 a b)
        by (apply (cmp_Eq_congr P c1 H1); assumption).
      rewrite (cmp_antisym P c1 H1 b c Pb Pc), Ebc, Eab in Ecb.
      discriminate.
Qed.

Lemma Consistent_on {A K} (P : A -> Prop) (Q : K -> Prop) (f : A -> K) c :
  (forall a, P a -> Q (f a)) ->
  Consistent Q c -> Consistent P (fun a b => c (f a) (f b)).
Proof.
  intros HPQ H. split.
  - intros a b Pa Pb. apply (cmp_antisym Q c H); auto.
  - intros a b x Pa Pb Px. apply (cmp_trans Q c H); auto.
Qed.

Lemma Consistent_flip {A} (P : A -> Prop) c :
  Consistent P c -> Consistent P (fun a b => c b a).
Proof.
  intros H. split.
  - intros a b Pa Pb. apply (cmp_antisym P c H); auto.
  - intros a b x Pa Pb Px Hab Hbx.
    apply (cmp_trans P c H x b a); auto.
Qed.

Lemma str_compare_consistent : Consistent (fun _ => True) str_compare.
Proof.
  assert (Hirr : forall x, String_as_OT.lt x x -> False)
    by (intros x; apply (StrictOrder_Irreflexive x)).
  assert (Htr : forall x y z, String_as_OT.lt x y -> String_as_OT.lt y z ->
                              String_as_OT.lt x z)
    by (intros x y z; apply (StrictOrder_Transitive x y z)).
  unfold str_compare. split.
  - intros a b _ _.
    destruct (String_as_OT.compare_spec a b) as [E|L|L];
      destruct (String_as_OT.compare_spec b a) as [E'|L'|L'];
      simpl; try reflexivity; exfalso;
      unfold String_as_OT.eq in *; subst;
      solve [eapply Hirr; eauto].
  - intros a b c _ _ _ Hab Hbc.
    destruct (String_as_OT.compare_spec a b) as [E|L|L]; [| |congruence];
      destruct (String_as_OT.compare_spec b c) as [E'|L'|L']; try congruence;
      destruct (String_as_OT.compare_spec a c) as [E''|L''|L'']; try congruence;
      exfalso; unfold String_as_OT.eq in *; subst; solve [eapply Hirr; eauto].
Qed.

Lemma str_compare_Eq a b : str_compare a b = Eq <-> a = b.
Proof.
  unfold str_compare.
  destruct (String_as_OT.compare_spec a b) as [E|L|L]; split;
    try congruence; intros ->;
    exfalso; revert L; apply (StrictOrder_Irreflexive b).
Qed.

Lemma overFirst_consistent : Consistent (fun _ => True) overFirst.
Proof.
  split.
  - intros [] [] _ _; reflexivity.
  - intros [] [] [] _ _ _; simpl; congruence.
Qed.

Lemma Qccompare_consistent : Consistent (fun _ => True) Qccompare.
Proof.
  split.
  - intros a b _ _. unfold Qccompare. symmetry. apply Qcompare_antisym.
  - intros a b c _ _ _. rewrite <- !Qcle_alt. apply Qcle_trans.
Qed.

Lemma num_compare_consistent : Consistent (fun x => x <> NaN) num_compare.
Proof.
  split.
  - intros [a| | |] [b| | |] Ha Hb; try congruence; simpl; try reflexivity.
    apply (cmp_antisym _ _ Qccompare_consistent); exact I.
  - intros [a| | |] [b| | |] [c| | |] Ha Hb Hc; try congruence; simpl;
      try congruence.
    apply (cmp_trans _ _ Qccompare_consistent); exact I.
Qed.

Lemma rankCmp_consistent : Consistent hasPercentage rankCmp.
Proof.
  unfold rankCmp. apply Consistent_lex; [|apply Consistent_lex].
  - apply Consistent_flip.
    apply (Consistent_on _ (fun _ => True) BudgetList.month); [auto|].
    apply str_compare_consistent.
  - apply (Consistent_on _ (fun _ => True) BudgetList.isOverBudget); [auto|].
    apply overFirst_consistent.
  - apply Consistent_flip.
    apply (Consistent_on _ (fun x => x <> NaN) BudgetList.percentageUsed);
      [auto|].
    apply num_compare_consistent.
Qed.

(** * The comparator of the budget list *)

Lemma sgn_minus a b : sgn (a - b)%Qc = (a ?= b)%Qc.
Proof.
  destruct (a ?= b)%Qc eqn:E.
  - apply Qceq_alt in E. subst. apply sgn_Eq. ring.
  - apply Qclt_alt in E. apply sgn_Lt.
    apply Qclt_minus_iff. apply Qclt_minus_iff in E.
    replace (0 + - (a - b))%Qc with (b + - a)%Qc by ring. exact E.
  - apply Qcgt_alt in E. apply sgn_Gt.
    apply Qclt_minus_iff in E. exact E.
Qed.

Lemma sortSign_num_sub x y : sortSign (num_sub x y) = num_compare x y.
Proof.
  destruct x as [a| | |], y as [b| | |]; simpl; try reflexivity.
  apply sgn_minus.
Qed.

Lemma sortSign_localeCompare a b :
  sortSign (localeCompare a b) = str_compare a b.
Proof. unfold localeCompare. destruct (str_compare a b); reflexivity. Qed.

Lemma compareForDisplay_sign a b :
  sortSign (BudgetList.compareForDisplay a b) = rankCmp a b.
Proof.
  unfold BudgetList.compareForDisplay, rankCmp, lex.
  destruct (String.eqb_spec (BudgetList.month a) (BudgetList.month b)) as [E|N];
    simpl.
  - rewrite E.
    replace (str_compare (BudgetList.month b) (BudgetList.month b)) with Eq
      by (symmetry; apply str_compare_Eq; reflexivity).
    destruct (BudgetList.isOverBudget a), (BudgetList.isOverBudget b); simpl;
      try reflexivity; apply sortSign_num_sub.
  - rewrite sortSign_localeCompare.
    destruct (str_compare (BudgetList.month b) (BudgetList.month a)) eqn:C;
      try reflexivity.
    apply str_compare_Eq in C. congruence.
Qed.

Lemma rank_sortWith l : BudgetList.rank l = sortWith rankCmp l.
Proof.
  unfold BudgetList.rank, Array_sort. apply sortWith_ext.
  apply compareForDisplay_sign.
Qed.

Lemma num_compare_Eq x y :
  x <> NaN -> y <> NaN -> num_compare x y = Eq <-> x = y.
Proof.
  destruct x as [a| | |], y as [b| | |]; intros Hx Hy; simpl;
    try congruence; try (split; congruence).
  rewrite <- Qceq_alt. split; congruence.
Qed.

Lemma num_eqb_eq x y : num_eqb x y = true <-> x = y.
Proof.
  destruct x as [a| | |], y as [b| | |]; simpl; try (split; congruence).
  destruct (Qc_eq_dec a b); split; congruence.
Qed.

Lemma tiedb_spec a b : tiedb a b = true <-> tied a b.
Proof.
  unfold tiedb, tied.
  rewrite !andb_true_iff, String.eqb_eq, Bool.eqb_true_iff, num_eqb_eq.
  tauto.
Qed.

Lemma rankCmp_Eq a b :
  hasPercentage a -> hasPercentage b -> rankCmp a b = Eq <-> tied a b.
Proof.
  intros Ha Hb. unfold rankCmp, lex, tied.
  destruct (str_compare (BudgetList.month b) (BudgetList.month a)) eqn:C.
  - apply str_compare_Eq in C.
    destruct (BudgetList.isOverBudget a), (BudgetList.isOverBudget b); simpl;
      try (split; [discriminate | intros (_ & ? & _); discriminate]);
      rewrite (num_compare_Eq _ _ Hb Ha); split;
      try (intros H; repeat split; congruence);
      intros (_ & _ & H); congruence.
  - split; [discriminate|]. intros (E & _). symmetry in E.
    apply str_compare_Eq in E. congruence.
  - split; [discriminate|]. intros (E & _). symmetry in E.
    apply str_compare_Eq in E. congruence.
Qed.

Lemma rankCmp_Lt a b : rankCmp a b = Lt <-> ranksBefore a b.
Proof.
  unfold rankCmp, lex, ranksBefore.
  destruct (str_compare (BudgetList.month b) (BudgetList.month a)) eqn:C.
  - apply str_compare_Eq in C.
    destruct (BudgetList.isOverBudget a), (BudgetList.isOverBudget b); simpl;
      split; intros H;
      try (right; right; repeat split; congruence);
      try (right; left; repeat split; congruence);
      try (destruct H as [H|[(_ & H1 & H2)|(_ & H1 & H2)]]; congruence).
  - split; [left; reflexivity | reflexivity].
  - split; [discriminate|].
    intros [H|[(E & _)|(E & _)]]; try discriminate;
      symmetry in E; apply str_compare_Eq in E; congruence.
Qed.

Lemma isEq_rankCmp a b :
  hasPercentage a -> hasPercentage b -> isEq (rankCmp a b) = tiedb a b.
Proof.
  intros Ha Hb.
  destruct (tiedb a b) eqn:T.
  - apply tiedb_spec, (rankCmp_Eq a b Ha Hb) in T. rewrite T. reflexivity.
  - destruct (rankCmp a b) eqn:C; try reflexivity.
    apply (rankCmp_Eq a b Ha Hb), tiedb_spec in C. congruence.
Qed.

Lemma filter_ext_Forall {A} (P : A -> Prop) (f g : A -> bool) l :
  Forall P l -> (forall x, P x -> f x = g x) -> List.filter f l = List.filter g l.
Proof.
  intros HP H. induction HP as [|x l Px HP IH]; simpl; [reflexivity|].
  rewrite (H x Px), IH. reflexivity.
Qed.

(** In a sorted array a value stands before every value it strictly
    precedes. *)
Lemma StronglySorted_before_split {A} (R : A -> A -> Prop) (l : list A) a b :
  StronglySorted R l -> In a l -> In b l -> a <> b -> ~ R b a ->
  exists l1 l2 l3, l = l1 ++ a :: l2 ++ b :: l3.
Proof.
  intros Hs Ha Hb Hne Hnot.
  induction Hs as [|x l Hs IH Hx]; [contradiction|].
  destruct Ha as [->|Ha].
  - destruct Hb as [Hb|Hb]; [congruence|].
    apply in_split in Hb as (l2 & l3 & ->).
    exists [], l2, l3. reflexivity.
  - destruct Hb as [->|Hb].
    + exfalso. apply Hnot. rewrite Forall_forall in Hx. apply Hx.
      apply list_elem_of_In. exact Ha.
    + destruct (IH Ha Hb) as (l1 & l2 & l3 & ->).
      exists (x :: l1), l2, l3. reflexivity.
Qed.

Lemma StronglySorted_weaken {A} (P : A -> Prop) (R R' : A -> A -> Prop) l :
  Forall P l -> (forall a b, P a -> P b -> R a b -> R' a b) ->
  StronglySorted R l -> StronglySorted R' l.
Proof.
  intros HP H Hs. induction Hs as [|x l Hs IH Hx]; constructor.
  - apply IH. apply Forall_cons in HP. tauto.
  - apply Forall_cons in HP as [Px HP].
    rewrite Forall_forall in Hx, HP |- *. intros y Hy. auto.
Qed.

Lemma always_sorted {A} (l : list A) : StronglySorted (fun _ _ => True) l.
Proof.
  induction l; constructor; [assumption|].
  apply Forall_forall. auto.
Qed.

(** The ranking on lists of progress records whose percentages are numbers. *)
Lemma rank_stable_sort (l : list BudgetList.BudgetWithSpending) :
  Forall hasPercentage l ->
  Permutation (BudgetList.rank l) l
  /\ StronglySorted (fun a b => ranksBefore a b \/ tied a b) (BudgetList.rank l)
  /\ (forall a, hasPercentage a ->
        List.filter (tiedb a) (BudgetList.rank l) = List.filter (tiedb a) l).
Proof.
  intros HP. rewrite rank_sortWith.
  assert (HPs : Forall hasPercentage (sortWith rankCmp l))
    by (apply sortWith_Forall, HP).
  split; [apply sortWith_perm|]. split.
  - apply (StronglySorted_weaken hasPercentage
             (before rankCmp (fun _ _ => True))); [exact HPs| |].
    + intros a b Pa Pb [H|[H _]].
      * left. apply rankCmp_Lt, H.
      * right. apply rankCmp_Eq; assumption.
    + apply (sortWith_before hasPercentage rankCmp rankCmp_consistent);
        [exact HP | apply always_sorted].
  - intros a Pa.
    rewrite <- (filter_ext_Forall hasPercentage (fun y => isEq (rankCmp a y)))
      by (try assumption; intros; apply isEq_rankCmp; assumption).
    rewrite <- (filter_ext_Forall hasPercentage (fun y => isEq (rankCmp a y))
                  (tiedb a) l)
      by (try assumption; intros; apply isEq_rankCmp; assumption).
    apply (sortWith_tied hasPercentage rankCmp rankCmp_consistent); assumption.
Qed.

Lemma progress_hasPercentage expenses b :
  Budget.monthlyLimit b <> 0%Qc -> hasPercentage (BudgetList.progress expenses b).
Proof.
  intros H. unfold hasPercentage.
  rewrite (progress_percentage_nonzero expenses b H). discriminate.
Qed.

Lemma Forall_filter_map {A B} (P : A -> Prop) (Q : B -> Prop) (f : A -> B) g l :
  (forall a, P a -> Q (f a)) -> Forall P l -> Forall Q (map f (List.filter g l)).
Proof.
  intros H HP. induction HP as [|x l Px HP IH]; simpl; [constructor|].
  destruct (g x); simpl; auto.
Qed.



(** * The report's filter *)

Lemma str_not_true s : str_not s = true <-> s = "".
Proof. destruct s; simpl; split; congruence. Qed.

Lemma str_not_false s : str_not s = false <-> s <> "".
Proof. destruct s; simpl; split; congruence. Qed.

Lemma keeps_spec f e : Report.keeps f e = true <-> Keeps f e.
Proof.
  unfold Report.keeps, Keeps, str_ge, str_le.
  rewrite !andb_true_iff, !orb_true_iff, !str_not_true, String.eqb_eq.
  destruct (str_compare (Expense.date e) (Report.startDate f));
    destruct (str_compare (Expense.date e) (Report.endDate f));
    destruct (string_dec (Report.startDate f) "");
    destruct (string_dec (Report.endDate f) "");
    destruct (string_dec (Report.selectedCategory f) "");
    intuition congruence.
Qed.

Lemma filter_keeps f l : List.filter (Report.keeps f) l = filter (Keeps f) l.
Proof.
  induction l as [|e l IH]; [reflexivity|].
  rewrite filter_cons. simpl. rewrite IH.
  destruct (Report.keeps f e) eqn:K.
  - apply keeps_spec in K. rewrite decide_True by exact K. reflexivity.
  - rewrite decide_False; [reflexivity|].
    intros H. apply keeps_spec in H. congruence.
Qed.

(** C3. The filtered list is the subsequence of the expenses, in their
    order, made of exactly those that meet every criterion that is given:
    a date not before the start date, a date not after the end date, the
    selected category.  With no criterion given it is the input. *)
Theorem C3_filter_subsequence (expenses : list Expense) (f : Report.Filters) :
  exists kept,
    Report.filteredExpenses (Arr expenses) f = Return kept
    /\ kept = filter (Keeps f) expenses
    /\ sublist kept expenses
    /\ (forall e, In e kept <-> In e expenses /\ Keeps f e)
    /\ (Report.startDate f = "" -> Report.endDate f = "" ->
        Report.selectedCategory f = "" -> kept = expenses).
Proof.
  exists (List.filter (Report.keeps f) expenses).
  split; [reflexivity|]. split; [apply filter_keeps|]. split; [|split].
  - rewrite filter_keeps. apply sublist_filter.
  - intros e. rewrite filter_In, keeps_spec. reflexivity.
  - intros Hs He Hc.
    induction expenses as [|e l IH]; [reflexivity|].
    simpl. unfold Report.keeps at 1. rewrite Hs, He, Hc. simpl.
    f_equal. exact IH.
Qed.

(** * Empty and ill-typed inputs *)

(** C8. On empty collections every aggregation gives its empty result and
    completes normally: the filter gives the empty list, the report gives
    [null], its sums are zero and its groupings empty; the dashboard gives
    zero totals, no chart data, a count of zero and no recent expenses; the
    budget list is empty, and a budget measured against no expenses has
    spent nothing. *)
Theorem C8_empty_inputs :
  forall (f : Report.Filters) (behindUTC : bool) (month filterMonth : string)
         (b : Budget),
  Report.filteredExpenses (Arr []) f = Return []
  /\ Report.filteredExpenses Undefined f = Return []
  /\ Report.pageMetrics behindUTC (Arr []) f = Return None
  /\ Report.pageMetrics behindUTC Undefined f = Return None
  /\ Report.totalSpent [] = 0%Qc
  /\ Report.categoryData [] = []
  /\ Report.monthlyData behindUTC [] = []
  /\ head (Report.categoryData []) = None
  /\ (exists m,
        Dashboard.dashboardMetrics (Arr []) (Arr []) month = Return (Some m)
        /\ Dashboard.totalMonthlySpend m = 0%Qc
        /\ Dashboard.totalBudget m = 0%Qc
        /\ Dashboard.remainingBudget m = 0%Qc
        /\ Dashboard.categoryData m = []
        /\ Dashboard.categoriesCount m = 0
        /\ Dashboard.recentExpenses m = [])
  /\ Dashboard.dashboardMetrics Undefined Undefined month
     = Dashboard.dashboardMetrics (Arr []) (Arr []) month
  /\ BudgetList.budgetsWithSpending (Arr []) (Arr []) filterMonth = Return []
  /\ BudgetList.budgetsWithSpending Undefined Undefined filterMonth = Return []
  /\ BudgetList.budgetsWithSpending (Arr []) (Arr [expense 5 "Food" "2025-08-01"])
       filterMonth = Return []
  /\ BudgetList.actualSpent (BudgetList.progress [] b) = 0%Qc
  /\ BudgetList.isOverBudget (BudgetList.progress [] b)
     = Qc_gtb 0%Qc (Budget.monthlyLimit b).
Proof.
  intros f behindUTC month filterMonth b.
  do 8 (split; [reflexivity|]).
  split.
  { eexists. split; [reflexivity|]. simpl.
    do 2 (split; [reflexivity|]). split; [qc_eq|].
    repeat split; reflexivity. }
  repeat split; reflexivity.
Qed.

(** Neither the report nor the dashboard ever throws. *)
Lemma filteredExpenses_returns expenses f :
  exists kept, Report.filteredExpenses expenses f = Return kept.
Proof.
  unfold Report.filteredExpenses. destruct (orEmpty expenses); eauto.
Qed.

Lemma pageMetrics_returns behindUTC expenses f :
  exists r, Report.pageMetrics behindUTC expenses f = Return r.
Proof.
  unfold Report.pageMetrics.
  destruct (filteredExpenses_returns expenses f) as [kept ->]. eauto.
Qed.

(** The budget list checks only that its inputs are truthy: a value that is
    not an array and not falsy reaches [filter] and a [TypeError] escapes. *)
Lemma budgetsWithSpending_non_array truthy filterMonth
    (expenses : queryData Expense) :
  BudgetList.budgetsWithSpending (NonArray truthy) expenses filterMonth
  = if truthy && negb (js_not (orEmpty expenses))
    then Throw TypeError else Return [].
Proof. destruct truthy, expenses as [|[]|]; reflexivity. Qed.

Lemma dashboardMetrics_returns expenses budgets month :
  exists r, Dashboard.dashboardMetrics expenses budgets month = Return r.
Proof.
  unfold Dashboard.dashboardMetrics.
  destruct (_ || _); [eauto|].
  destruct (orEmpty expenses), (orEmpty budgets); eauto.
Qed.

(** C9, as the code has it.  A value that is not an array is not rejected:
    the report's filter answers it with the empty list (and the report with
    [null]), the dashboard with [null], and nothing is thrown, exactly as
    for data that is missing or empty. *)
Theorem C9_non_array_gives_sentinel :
  forall (truthy : bool) (f : Report.Filters) (behindUTC : bool)
         (month : string)
         (expenses : queryData Expense) (budgets : queryData Budget),
  Report.filteredExpenses (NonArray truthy) f = Return []
  /\ Report.pageMetrics behindUTC (NonArray truthy) f = Return None
  /\ Dashboard.dashboardMetrics (NonArray truthy) budgets month = Return None
  /\ Dashboard.dashboardMetrics expenses (NonArray truthy) month = Return None
  /\ Report.filteredExpenses Undefined f = Return []
  /\ Report.filteredExpenses (Arr []) f = Return []
  /\ Report.pageMetrics behindUTC Undefined f = Return None
  /\ Report.pageMetrics behindUTC (Arr []) f = Return None
  /\ (exists kept, Report.filteredExpenses expenses f = Return kept)
  /\ (exists r, Report.pageMetrics behindUTC expenses f = Return r)
  /\ (exists r, Dashboard.dashboardMetrics expenses budgets month = Return r).
Proof.
  intros truthy f behindUTC month expenses budgets.
  split; [reflexivity|]. split; [reflexivity|]. split; [|split].
  - destruct truthy, budgets as [|[]|]; reflexivity.
  - destruct truthy, expenses as [|[]|]; reflexivity.
  - do 4 (split; [reflexivity|]).
    split; [apply filteredExpenses_returns|].
    split; [apply pageMetrics_returns | apply dashboardMetrics_returns].
Qed.

(** C9 as stated fails: handed an object or [null] instead of the expense
    array, neither computation throws. *)
Lemma C9_non_array_counterexample :
  ~ (exists e, Report.filteredExpenses (NonArray true) noFilters = Throw e)
  /\ ~ (exists e, Report.pageMetrics false (NonArray true) noFilters = Throw e)
  /\ ~ (exists e, Dashboard.dashboardMetrics (NonArray false) (Arr []) "2025-08"
                  = Throw e).
Proof. repeat split; intros [e H]; discriminate H. Qed.

(** * The dashboard's category count *)

(** C10. The category count of the dashboard does not depend on the
    selected month: it is the number of distinct categories of the whole
    expense list.  The monthly total and the chart data of the same result
    do depend on it. *)
Theorem C10_category_count_ignores_month :
  (forall (expenses : queryData Expense) (budgets : queryData Budget)
          (m1 m2 : string),
      countShown (Dashboard.dashboardMetrics expenses budgets m1)
      = countShown (Dashboard.dashboardMetrics expenses budgets m2))
  /\ (forall (expenses : list Expense) (budgets : list Budget) (m : string),
        countShown (Dashboard.dashboardMetrics (Arr expenses) (Arr budgets) m)
        = Some (List.length (remove_dups (map Expense.category expenses))))
  /\ (exists (expenses : list Expense) (budgets : list Budget) (m1 m2 : string),
        Dashboard.totalMonthlySpend (Dashboard.metrics expenses budgets m1)
        <> Dashboard.totalMonthlySpend (Dashboard.metrics expenses budgets m2)
        /\ Dashboard.categoryData (Dashboard.metrics expenses budgets m1)
           <> Dashboard.categoryData (Dashboard.metrics expenses budgets m2)
        /\ Dashboard.categoriesCount (Dashboard.metrics expenses budgets m1)
           = Dashboard.categoriesCount (Dashboard.metrics expenses budgets m2)).
Proof.
  split; [|split].
  - intros expenses budgets m1 m2. unfold Dashboard.dashboardMetrics.
    destruct (_ || _); [reflexivity|].
    destruct (orEmpty expenses), (orEmpty budgets); reflexivity.
  - intros expenses budgets m. simpl. f_equal.
    unfold Dashboard.uniqueCategories.
    rewrite <- (size_list_to_set (C := gset string))
      by apply NoDup_remove_dups.
    f_equal. apply set_eq. intros x.
    rewrite !elem_of_list_to_set, elem_of_remove_dups. reflexivity.
  - exists demoExpenses, [], "2025-08", "2025-09".
    split; [|split].
    + intros H. apply (f_equal this) in H. vm_compute in H. discriminate.
    + intros H. apply (f_equal (@List.length _)) in H. vm_compute in H.
      discriminate.
    + reflexivity.
Qed.

(** * Grouping *)

Lemma total_perm l l' : Permutation l l' -> total l = total l'.
Proof.
  induction 1 as [|x l l' _ IH|x y l|l l' l'' _ IH1 _ IH2]; simpl.
  - reflexivity.
  - rewrite IH. reflexivity.
  - ring.
  - congruence.
Qed.

Lemma filter_complement_perm {A} (f : A -> bool) l :
  Permutation (List.filter f l ++ List.filter (fun x => negb (f x)) l) l.
Proof.
  induction l as [|x l IH]; simpl; [reflexivity|].
  destruct (f x); simpl.
  - apply perm_skip, IH.
  - rewrite <- Permutation_middle. apply perm_skip, IH.
Qed.

Lemma map_snd_indexed {V} (o : jsobject V) :
  map snd (flat_map indexed o) = List.filter isIndexKey o.
Proof.
  induction o as [|kv o IH]; simpl; [reflexivity|].
  unfold indexed at 1, isIndexKey at 1.
  destruct (arrayIndex (fst kv)); simpl; rewrite IH; reflexivity.
Qed.

(** [Object.entries] lists every own property once. *)
Lemma Object_entries_perm {V} (o : jsobject V) : Permutation (Object_entries o) o.
Proof.
  unfold Object_entries.
  rewrite <- (filter_complement_perm isIndexKey o) at 3.
  apply Permutation_app_tail.
  rewrite <- map_snd_indexed. apply Permutation_map, sortWith_perm.
Qed.

Lemma or0_Some v : or0 (Some v) = v.
Proof. simpl. destruct (Qc_eq_dec v 0%Qc); congruence. Qed.

Lemma total_addTo acc key a :
  total (map snd (addTo acc key a)) = (total (map snd acc) + a)%Qc.
Proof.
  unfold addTo. induction acc as [|[k v] acc IH]; simpl.
  - ring.
  - destruct (String.eqb k key) eqn:E; simpl.
    + destruct (Qc_eq_dec v 0%Qc) as [->|_]; ring.
    + rewrite IH. ring.
Qed.

Lemma total_grouped {A} (key : A -> string) (amt : A -> Qc) l acc :
  total (map snd (fold_left (fun acc x => addTo acc (key x) (amt x)) l acc))
  = (total (map snd acc) + total (map amt l))%Qc.
Proof.
  revert acc. induction l as [|x l IH]; intros acc; simpl.
  - ring.
  - rewrite IH, total_addTo. ring.
Qed.

Lemma total_spendingByCategory expenses :
  total (map snd (spendingByCategory expenses)) = amountTotal expenses.
Proof.
  unfold spendingByCategory, amountTotal.
  rewrite (total_grouped Expense.category Expense.amount). simpl. ring.
Qed.

Lemma map_value_toChartData l : map value (map toChartData l) = map snd l.
Proof. rewrite map_map. reflexivity. Qed.


(** ** The keys and values of a grouping *)

Lemma obj_get_set {V} (o : jsobject V) k v k' :
  obj_get (obj_set o k v) k' = if String.eqb k k' then Some v else obj_get o k'.
Proof.
  induction o as [|[k0 v0] o IH]; simpl.
  - reflexivity.
  - destruct (String.eqb_spec k0 k) as [->|N]; simpl.
    + destruct (String.eqb k k'); reflexivity.
    + rewrite IH. destruct (String.eqb_spec k k') as [->|N'];
        [|reflexivity].
      destruct (String.eqb_spec k0 k'); [congruence | reflexivity].
Qed.

Lemma obj_get_inb {V} (o : jsobject V) k :
  inb k (map fst o) = match obj_get o k with Some _ => true | None => false end.
Proof.
  induction o as [|[k0 v0] o IH]; simpl; [reflexivity|].
  rewrite (String.eqb_sym k k0). destruct (String.eqb k0 k); simpl; auto.
Qed.

Lemma obj_set_keys {V} (o : jsobject V) k v :
  map fst (obj_set o k v)
  = if inb k (map fst o) then map fst o else map fst o ++ [k].
Proof.
  induction o as [|[k0 v0] o IH]; simpl; [reflexivity|].
  rewrite (String.eqb_sym k k0). destruct (String.eqb k0 k); simpl.
  - reflexivity.
  - rewrite IH. destruct (inb k (map fst o)); reflexivity.
Qed.

Lemma inb_In k l : inb k l = true <-> In k l.
Proof.
  unfold inb. rewrite existsb_exists. split.
  - intros (x & Hx & E). apply String.eqb_eq in E. congruence.
  - intros H. exists k. split; [exact H | apply String.eqb_refl].
Qed.

Lemma firsts_In c l : In c (firsts l) <-> In c l.
Proof.
  induction l as [|x l IH]; simpl; [reflexivity|].
  rewrite filter_In, IH, negb_true_iff, String.eqb_neq.
  destruct (string_dec x c); intuition congruence.
Qed.

Lemma inb_firsts k l : inb k (firsts l) = inb k l.
Proof.
  destruct (inb k l) eqn:E.
  - apply (proj2 (inb_In _ _)), (proj2 (firsts_In _ _)), (proj1 (inb_In _ _)), E.
  - destruct (inb k (firsts l)) eqn:E'; [|reflexivity].
    apply (proj1 (inb_In _ _)), (proj1 (firsts_In _ _)),
      (proj2 (inb_In _ _)) in E'.
    congruence.
Qed.

Lemma firsts_NoDup l : NoDup (firsts l).
Proof.
  induction l as [|x l IH]; simpl; constructor.
  - rewrite list_elem_of_In, filter_In, negb_true_iff, String.eqb_neq. tauto.
  - apply NoDup_ListNoDup, List.NoDup_filter, NoDup_ListNoDup, IH.
Qed.

Lemma firsts_snoc l k :
  firsts (l ++ [k]) = if inb k l then firsts l else firsts l ++ [k].
Proof.
  induction l as [|c l IH]; simpl; [reflexivity|].
  rewrite IH. rewrite (String.eqb_sym k c).
  destruct (String.eqb_spec c k) as [->|N]; simpl.
  - destruct (inb k l); [reflexivity|].
    rewrite List.filter_app. simpl. rewrite String.eqb_refl. simpl.
    rewrite app_nil_r. reflexivity.
  - destruct (inb k l); [reflexivity|].
    rewrite List.filter_app. simpl.
    destruct (String.eqb_spec k c); [congruence|]. reflexivity.
Qed.

Section Grouping.
Context {A : Type} (key : A -> string) (amt : A -> Qc).

Local Abbreviation grouped := (grouped key amt).
Local Abbreviation groupTotal := (groupTotal key amt).

Lemma grouped_snoc l x :
grouped (l ++ [x]) = addTo (grouped l) (key x) (amt x).
Proof. unfold grouped. rewrite fold_left_app. reflexivity. Qed.

(** The keys of a grouping are created in the order of first occurrence. *)
Lemma grouped_keys l : map fst (grouped l) = firsts (map key l).
Proof.
induction l as [|x l IH] using rev_ind; [reflexivity|].
rewrite grouped_snoc, map_app. simpl. rewrite firsts_snoc.
unfold addTo. rewrite obj_set_keys, IH, inb_firsts. reflexivity.
Qed.

Lemma groupTotal_snoc k l x :
groupTotal k (l ++ [x])
= (groupTotal k l + if String.eqb (key x) k then amt x else 0)%Qc.
Proof.
unfold groupTotal. rewrite List.filter_app, map_app. simpl.
generalize (map amt (List.filter (fun x0 => String.eqb (key x0) k) l)).
intros vs. destruct (String.eqb (key x) k); simpl;
  induction vs as [|v vs IHv]; simpl; try rewrite IHv; ring.
Qed.

Lemma groupTotal_absent k l : inb k (map key l) = false -> groupTotal k l = 0%Qc.
Proof.
unfold groupTotal. induction l as [|x l IH]; simpl; [reflexivity|].
rewrite (String.eqb_sym k (key x)).
destruct (String.eqb (key x) k); simpl; [discriminate|]. exact IH.
Qed.

(** Each key holds the sum of the amounts filed under it. *)
Lemma grouped_get l k :
obj_get (grouped l) k
= if inb k (map key l) then Some (groupTotal k l) else None.
Proof.
induction l as [|x l IH] using rev_ind; [reflexivity|].
rewrite grouped_snoc. unfold addTo. rewrite obj_get_set.
rewrite map_app. unfold inb in *. rewrite existsb_app. simpl.
rewrite orb_false_r, groupTotal_snoc.
destruct (String.eqb_spec (key x) k) as [E|N].
- subst k. rewrite String.eqb_refl, orb_true_r. f_equal.
  rewrite IH. destruct (existsb (String.eqb (key x)) (map key l)) eqn:M.
  + rewrite or0_Some. reflexivity.
  + rewrite (groupTotal_absent _ _ M). reflexivity.
- destruct (String.eqb_spec k (key x)); [congruence|].
  rewrite orb_false_r, IH.
  destruct (existsb (String.eqb k) (map key l)); [|reflexivity].
  f_equal. ring.
Qed.

Lemma grouped_entry l k v :
In (k, v) (grouped l) -> In k (map key l) /\ v = groupTotal k l.
Proof.
intros H.
assert (Hk : In k (map key l)).
{ apply firsts_In. rewrite <- grouped_keys.
  apply (in_map fst) in H. exact H. }
split; [exact Hk|].
assert (Hget : obj_get (grouped l) k = Some v).
{ assert (Hnd : NoDup (map fst (grouped l)))
    by (rewrite grouped_keys; apply firsts_NoDup).
  revert Hnd H. generalize (grouped l). intros o.
  induction o as [|[k0 v0] o IHo]; simpl; [contradiction|].
  intros Hnd [E|Hin].
  - injection E as -> ->. rewrite String.eqb_refl. reflexivity.
  - apply NoDup_cons in Hnd as [Hnotin Hnd].
    destruct (String.eqb_spec k0 k) as [->|N].
    + exfalso. apply Hnotin. apply list_elem_of_In.
      apply (in_map fst) in Hin. exact Hin.
    + apply IHo; assumption. }
rewrite grouped_get in Hget.
destruct (inb k (map key l)); congruence.
Qed.
End Grouping.

(** ** The order of [Object.entries] *)

Lemma StronglySorted_filter {A} (R : A -> A -> Prop) (f : A -> bool) l :
  StronglySorted R l -> StronglySorted R (List.filter f l).
Proof.
  induction 1 as [|x l Hs IH Hx]; simpl; [constructor|].
  destruct (f x); [|exact IH].
  constructor; [exact IH|].
  rewrite Forall_forall in Hx |- *. intros y Hy.
  apply Hx. apply list_elem_of_In. apply list_elem_of_In, filter_In in Hy. tauto.
Qed.

Lemma StronglySorted_map {A B} (R : B -> B -> Prop) (f : A -> B) l :
  StronglySorted (fun a b => R (f a) (f b)) l <-> StronglySorted R (map f l).
Proof.
  induction l as [|x l IH]; simpl.
  - split; constructor.
  - split; intros H; apply StronglySorted_inv in H as [Hs Hx];
      constructor; try (apply IH; exact Hs).
    + apply Forall_forall. intros y Hy.
      apply list_elem_of_In, in_map_iff in Hy as (a & <- & Ha).
      rewrite Forall_forall in Hx. apply Hx, list_elem_of_In, Ha.
    + apply Forall_forall. intros a Ha. rewrite Forall_forall in Hx.
      apply Hx, list_elem_of_In, in_map, list_elem_of_In, Ha.
Qed.

Lemma firstOf_skip x y c l :
  c <> x -> c <> y -> firstOf x y (c :: l) = firstOf x y l.
Proof.
  intros Hx Hy. simpl.
  destruct (String.eqb_spec c x); [congruence|].
  destruct (String.eqb_spec c y); [congruence|]. reflexivity.
Qed.

Lemma firsts_sorted l :
  StronglySorted (fun x y => firstOf x y l = true) (firsts l).
Proof.
  induction l as [|c l IH]; simpl; constructor.
  - apply (StronglySorted_weaken (fun x => c <> x)
             (fun x y => firstOf x y l = true)).
    + apply Forall_forall. intros x Hx.
      apply list_elem_of_In, filter_In in Hx. destruct Hx as [_ Hx].
      apply negb_true_iff, String.eqb_neq in Hx. congruence.
    + intros x y Hx Hy H. change (firstOf x y (c :: l) = true).
      rewrite firstOf_skip by assumption. exact H.
    + apply StronglySorted_filter, IH.
  - apply Forall_forall. intros y _. rewrite String.eqb_refl. reflexivity.
Qed.

Lemma N_compare_consistent : Consistent (fun _ : N => True) N.compare.
Proof.
  split.
  - intros a b _ _. apply N.compare_antisym.
  - intros a b c _ _ _. rewrite !N.compare_le_iff. apply N.le_trans.
Qed.

Lemma indexed_In {V} (o : jsobject V) i kv :
  In (i, kv) (flat_map indexed o) -> In kv o /\ arrayIndex (fst kv) = Some i.
Proof.
  rewrite in_flat_map. intros (kv' & Hin & H).
  unfold indexed in H. destruct (arrayIndex (fst kv')) eqn:E; [|contradiction].
  destruct H as [H|[]]. injection H as <- <-. auto.
Qed.

(** The entries of an object whose keys were created in the order of
    [cats] come in the order [entryOrder cats]. *)
Lemma Object_entries_sorted {V} (o : jsobject V) cats :
  map fst o = firsts cats ->
  StronglySorted (fun kv kv' => entryOrder cats (fst kv) (fst kv'))
                 (Object_entries o).
Proof.
  intros Hkeys. unfold Object_entries.
  set (pairs := sortWith (fun x y => N.compare (fst x) (fst y))
                         (flat_map indexed o)).
  assert (Hpairs : Forall (fun p => In (snd p) o
                                    /\ arrayIndex (fst (snd p)) = Some (fst p))
                          pairs).
  { apply sortWith_Forall. apply Forall_forall. intros [i kv] H.
    apply list_elem_of_In, indexed_In in H. exact H. }
  apply StronglySorted_app. split; [|split].
  - intros kv kv' H1 H2.
    apply list_elem_of_In, in_map_iff in H1 as ([i kv0] & <- & H1).
    rewrite Forall_forall in Hpairs.
    apply list_elem_of_In, Hpairs in H1 as [_ H1]. simpl in H1.
    apply list_elem_of_In, filter_In in H2 as [_ H2].
    unfold isIndexKey in H2. unfold entryOrder. simpl. rewrite H1.
    destruct (arrayIndex (fst kv')); [discriminate | exact I].
  - apply (StronglySorted_map
             (fun kv kv' => entryOrder cats (fst kv) (fst kv')) snd).
    apply (StronglySorted_weaken
             (fun p => arrayIndex (fst (snd p)) = Some (fst p))
             (before (fun x y => N.compare (fst x) (fst y)) (fun _ _ => True))).
    + eapply Forall_impl; [exact Hpairs|]. simpl. tauto.
    + intros p q Hp Hq H.
      assert (Hle : (fst p <= fst q)%N).
      { unfold N.le.
        destruct H as [H|[H _]]; simpl in H; rewrite H; discriminate. }
      unfold entryOrder. rewrite Hp, Hq. exact Hle.
    + apply (sortWith_before (fun _ => True)).
      * apply (Consistent_on _ (fun _ => True) fst); [auto|].
        apply N_compare_consistent.
      * apply Forall_forall. auto.
      * apply always_sorted.
  - apply (StronglySorted_weaken
             (fun kv => arrayIndex (fst kv) = None)
             (fun kv kv' => firstOf (fst kv) (fst kv') cats = true)).
    + apply Forall_forall. intros kv H.
      apply list_elem_of_In, filter_In in H as [_ H]. unfold isIndexKey in H.
      destruct (arrayIndex (fst kv)); [discriminate | reflexivity].
    + intros kv kv' H1 H2 H. unfold entryOrder. rewrite H1, H2. exact H.
    + apply StronglySorted_filter.
      apply (StronglySorted_map (fun x y => firstOf x y cats = true) fst).
      rewrite Hkeys. apply firsts_sorted.
Qed.

(** ** The category breakdown of the report *)

Lemma categoryData_sortWith expenses :
  Report.categoryData expenses
  = sortWith (fun a b => Qccompare (value b) (value a))
             (map toChartData
                  (Object_entries (grouped Expense.category Expense.amount expenses))).
Proof.
  unfold Report.categoryData, Array_sort. apply sortWith_ext.
  intros a b. simpl. apply sgn_minus.
Qed.

Lemma byValue_consistent :
  Consistent (fun _ : ChartData => True)
             (fun a b => Qccompare (value b) (value a)).
Proof.
  apply Consistent_flip.
  apply (Consistent_on _ (fun _ => True) value); [auto|].
  apply Qccompare_consistent.
Qed.

Lemma categoryData_perm expenses :
  Permutation (Report.categoryData expenses)
              (map toChartData (grouped Expense.category Expense.amount expenses)).
Proof.
  rewrite categoryData_sortWith, sortWith_perm.
  apply Permutation_map, Object_entries_perm.
Qed.

Lemma categoryData_names_perm expenses :
  Permutation (map name (Report.categoryData expenses))
              (firsts (map Expense.category expenses)).
Proof.
  rewrite (Permutation_map name (categoryData_perm expenses)).
  rewrite map_map. simpl.
  rewrite <- (grouped_keys Expense.category Expense.amount). reflexivity.
Qed.




(** ** The monthly breakdown of the report *)

(** What the code sorts by: the labels, in the order of [localeCompare]. *)
Lemma monthlyData_sorted_by_label behindUTC expenses :
  StronglySorted (fun a b => str_compare (name a) (name b) <> Gt)
                 (Report.monthlyData behindUTC expenses).
Proof.
  unfold Report.monthlyData, Array_sort.
  rewrite (sortWith_ext _ (fun a b => str_compare (name a) (name b)))
    by (intros a b; apply sortSign_localeCompare).
  eapply (StronglySorted_weaken (fun _ => True)).
  - apply Forall_forall. auto.
  - intros a b _ _ H. instantiate (1 := before _ (fun _ _ => True)) in H.
    destruct H as [H|[H _]]; rewrite H; discriminate.
  - apply (sortWith_before (fun _ => True)).
    + apply (Consistent_on _ (fun _ => True) name); [auto|].
      apply str_compare_consistent.
    + apply Forall_forall. auto.
    + apply always_sorted.
Qed.

(** The grouping by month itself is as the specification has it: one key
    for each month that occurs, holding the sum of the amounts of that
    month; the chart data is these entries, relabelled, in another order. *)
Lemma monthlySpending_groups expenses :
  let monthOf := fun e => substring 0 7 (Expense.date e) in
  map fst (Report.monthlySpending expenses) = firsts (map monthOf expenses)
  /\ (forall k v, In (k, v) (Report.monthlySpending expenses) ->
        v = groupTotal monthOf Expense.amount k expenses)
  /\ forall behindUTC,
       Permutation (map value (Report.monthlyData behindUTC expenses))
                   (map snd (Report.monthlySpending expenses)).
Proof.
  intros monthOf. split; [|split].
  - apply (grouped_keys monthOf Expense.amount).
  - intros k v H. apply (grouped_entry monthOf Expense.amount) in H. tauto.
  - intros behindUTC. unfold Report.monthlyData, Array_sort.
    rewrite (Permutation_map value (sortWith_perm _ _)), map_map. simpl.
    apply Permutation_map, Object_entries_perm.
Qed.

(** C2, evaluated.  June 2025 holds 10 and August 2025 holds 20; the
    entries come out in the order of their labels, August before June, in
    time zones at or ahead of UTC ("Aug 2025", "Jun 2025") and behind it
    ("Jul 2025", "May 2025").  Behind UTC the entry of January 2025 even
    precedes the entry of December 2024. *)
Theorem C2_monthly_entries_in_label_order :
  shownObject (Report.monthlySpending summerExpenses)
  = [("2025-06", (10 # 1)%Q); ("2025-08", (20 # 1)%Q)]
  /\ shown (Report.monthlyData false summerExpenses)
     = [("Aug 2025", (20 # 1)%Q); ("Jun 2025", (10 # 1)%Q)]
  /\ shown (Report.monthlyData true summerExpenses)
     = [("Jul 2025", (20 # 1)%Q); ("May 2025", (10 # 1)%Q)]
  /\ shownObject (Report.monthlySpending newYearExpenses)
     = [("2024-12", (10 # 1)%Q); ("2025-01", (20 # 1)%Q)]
  /\ shown (Report.monthlyData false newYearExpenses)
     = [("Dec 2024", (10 # 1)%Q); ("Jan 2025", (20 # 1)%Q)]
  /\ shown (Report.monthlyData true newYearExpenses)
     = [("Dec 2024", (20 # 1)%Q); ("Nov 2024", (10 # 1)%Q)].
Proof. repeat split; vm_compute; reflexivity. Qed.

(** * Further properties of the budget list *)

Lemma Qc_ltb_true a b : Qc_ltb a b = true <-> (a < b)%Qc.
Proof.
  unfold Qc_ltb. rewrite (Qclt_alt a b).
  destruct (a ?= b)%Qc; split; congruence.
Qed.

Lemma Qccompare_swap a b : (a ?= b)%Qc = CompOpp (b ?= a)%Qc.
Proof. unfold Qccompare. symmetry. apply Qcompare_antisym. Qed.

(** X1. The two over-budget marks of a budget card agree: the remainder is
    negative exactly when the budget is flagged as over budget, whatever
    the limit and the expenses. *)
Theorem X1_over_budget_iff_negative_remainder
    (expenses : list Expense) (b : Budget) :
  showsOver (BudgetList.progress expenses b)
  = BudgetList.isOverBudget (BudgetList.progress expenses b).
Proof.
  unfold showsOver, Qc_ltb. simpl. unfold Qc_gtb.
  fold (sgn (Budget.monthlyLimit b
             - sumOfAmounts (List.filter (BudgetList.inScope b) expenses))).
  rewrite sgn_minus, Qccompare_swap.
  destruct (sumOfAmounts (List.filter (BudgetList.inScope b) expenses)
            ?= Budget.monthlyLimit b)%Qc; reflexivity.
Qed.

Lemma total_nonneg l : Forall (fun x => (0 <= x)%Qc) l -> (0 <= total l)%Qc.
Proof.
  induction 1 as [|x l Hx _ IH]; simpl.
  - apply Qcle_refl.
  - apply Qcplus_nonneg_nonneg; assumption.
Qed.

Lemma amountTotal_nonneg expenses :
  Forall (fun e => (0 <= Expense.amount e)%Qc) expenses ->
  (0 <= amountTotal expenses)%Qc.
Proof.
  intros H. apply total_nonneg.
  induction H; simpl; constructor; assumption.
Qed.

Lemma Forall_List_filter {A} (P : A -> Prop) (f : A -> bool) l :
  Forall P l -> Forall P (List.filter f l).
Proof.
  induction 1 as [|x l Hx _ IH]; simpl; [constructor|].
  destruct (f x); [constructor|]; assumption.
Qed.

Lemma hundred_pos : (0 < Qc_of_Z 100)%Qc.
Proof. reflexivity. Qed.

(** X2. For a positive limit and amounts that are not negative the
    percentage handed to the progress bar is a number between 0 and 100;
    it is exactly 100 when the budget is over budget, and otherwise the
    true percentage [actualSpent / monthlyLimit * 100]. *)
Theorem X2_percentage_within_bar (expenses : list Expense) (b : Budget) :
  (0 < Budget.monthlyLimit b)%Qc ->
  Forall (fun e => (0 <= Expense.amount e)%Qc) expenses ->
  let r := BudgetList.progress expenses b in
  exists p,
    BudgetList.percentageUsed r = Fin p
    /\ (0 <= p)%Qc /\ (p <= Qc_of_Z 100)%Qc
    /\ (BudgetList.isOverBudget r = true -> p = Qc_of_Z 100)
    /\ (BudgetList.isOverBudget r = false ->
        p = (BudgetList.actualSpent r / Budget.monthlyLimit b * Qc_of_Z 100)%Qc).
Proof.
  intros Hpos Hamounts r.
  assert (Hne : Budget.monthlyLimit b <> 0%Qc).
  { intros H0. rewrite H0 in Hpos. exact (Qclt_not_eq _ _ Hpos eq_refl). }
  set (limit := Budget.monthlyLimit b) in *.
  set (spent := BudgetList.actualSpent r).
  set (q := (spent / limit * Qc_of_Z 100)%Qc).
  assert (Hq : (q * limit = spent * Qc_of_Z 100)%Qc)
    by (unfold q; field; exact Hne).
  assert (Hspent : (0 <= spent)%Qc).
  { unfold spent, r. simpl. rewrite sumOfAmounts_total.
    apply amountTotal_nonneg, Forall_List_filter, Hamounts. }
  assert (Hq0 : (0 <= q)%Qc).
  { apply (Qcmult_le_mono_pos_r _ _ limit Hpos).
    rewrite Qcmult_0_l, Hq.
    apply Qcmult_nonneg_nonneg; [exact Hspent | apply Qclt_le_weak, hundred_pos]. }
  assert (Hover : BudgetList.isOverBudget r = true <-> (Qc_of_Z 100 < q)%Qc).
  { change (BudgetList.isOverBudget r) with (Qc_gtb spent limit).
    rewrite Qc_gtb_true.
    rewrite (Qcmult_lt_mono_pos_r _ q limit Hpos), Hq.
    rewrite (Qcmult_comm (Qc_of_Z 100) limit).
    apply Qcmult_lt_mono_pos_r, hundred_pos. }
  exists (Qcmin q (Qc_of_Z 100)).
  split; [apply (progress_percentage_nonzero expenses b Hne)|].
  unfold Qcmin. destruct (q ?= Qc_of_Z 100)%Qc eqn:E.
  - apply Qceq_alt in E.
    split; [exact Hq0|]. split; [rewrite E; apply Qcle_refl|].
    split; [intros _; exact E | reflexivity].
  - apply Qclt_alt in E.
    split; [exact Hq0|]. split; [apply Qclt_le_weak, E|].
    split; [|reflexivity].
    intros H. apply Hover in H. exfalso.
    exact (Qclt_not_le _ _ E (Qclt_le_weak _ _ H)).
  - apply Qcgt_alt in E.
    split; [apply Qclt_le_weak, hundred_pos|]. split; [apply Qcle_refl|].
    split; [reflexivity|].
    intros H. apply Hover in E. congruence.
Qed.

Lemma X2_percentage_within_bar_witness :
  exists p,
    BudgetList.percentageUsed
      (BudgetList.progress demoExpenses (budgetFor "Fun" "2025-08" 40)) = Fin p
    /\ (0 <= p)%Qc /\ (p <= Qc_of_Z 100)%Qc.
Proof.
  assert (Hpos : (0 < Budget.monthlyLimit (budgetFor "Fun" "2025-08" 40))%Qc)
    by reflexivity.
  assert (Hamounts : Forall (fun e => (0 <= Expense.amount e)%Qc) demoExpenses).
  { repeat constructor; intros H; vm_compute in H; discriminate. }
  destruct (X2_percentage_within_bar demoExpenses _ Hpos Hamounts)
    as (p & Hp & H0 & H100 & _).
  exists p. auto.
Defined.


(** X4. The budget list guards its inputs only against falsy values: it
    throws a [TypeError] exactly when the budgets are a truthy value that
    is not an array while the expenses are not falsy, or when the expenses
    are such a value and at least one budget is shown; in every other case
    it returns. *)
Theorem X4_budget_list_throws_exactly_when
    (budgets : queryData Budget) (expenses : queryData Expense)
    (filterMonth : string) :
  (BudgetList.budgetsWithSpending budgets expenses filterMonth = Throw TypeError
   <-> (budgets = NonArray true /\ expenses <> NonArray false)
       \/ (exists bs, budgets = Arr bs /\ expenses = NonArray true
                      /\ List.filter (BudgetList.monthShown filterMonth) bs <> []))
  /\ (BudgetList.budgetsWithSpending budgets expenses filterMonth = Throw TypeError
      \/ exists ranked,
           BudgetList.budgetsWithSpending budgets expenses filterMonth
           = Return ranked).
Proof.
  destruct budgets as [|[]|bs], expenses as [|[]|es]; simpl;
    try (split; [split; [discriminate|];
                 intros [[H1 H2]|(bs' & H1 & H2 & H3)]; congruence
                | right; eauto]);
    try (split; [split; [intros _; left; split; congruence | reflexivity]
                | left; reflexivity]).
  unfold BudgetList.budgetsWithSpending. simpl.
  destruct (List.filter (BudgetList.monthShown filterMonth) bs) as [|b l] eqn:E.
  - split; [|right; eauto].
    split; [discriminate|].
    intros [[H1 H2]|(bs' & H1 & H2 & H3)]; [congruence|].
    injection H1 as <-. congruence.
  - split; [|left; reflexivity].
    split; [|reflexivity].
    intros _. right. exists bs. rewrite E. repeat split; congruence.
Qed.

(** * The month selectors *)

Lemma StronglySorted_rev {A} (R : A -> A -> Prop) l :
  StronglySorted R l -> StronglySorted (fun a b => R b a) (rev l).
Proof.
  induction 1 as [|x l Hs IH Hx]; simpl; [constructor|].
  apply StronglySorted_app. split; [|split].
  - intros a b Ha Hb. apply list_elem_of_In in Hb as [<-|[]].
    rewrite Forall_forall in Hx. apply Hx.
    apply list_elem_of_In. apply list_elem_of_In, in_rev in Ha. exact Ha.
  - exact IH.
  - repeat constructor.
Qed.

Lemma StronglySorted_NoDup_strict {A} (R : A -> A -> Prop) l :
  StronglySorted R l -> NoDup l -> StronglySorted (fun a b => R a b /\ a <> b) l.
Proof.
  induction 1 as [|x l Hs IH Hx]; intros Hnd; constructor.
  - apply IH. apply NoDup_cons in Hnd. tauto.
  - apply NoDup_cons in Hnd as [Hnotin _].
    rewrite Forall_forall in Hx |- *. intros y Hy.
    split; [auto|]. intros ->. contradiction.
Qed.

(** The values of a month selector: each month once, latest first. *)
Lemma uniqueMonths_spec months :
  NoDup (uniqueMonths months)
  /\ StronglySorted (fun a b => str_compare b a = Lt) (uniqueMonths months)
  /\ (forall m, In m (uniqueMonths months) <-> In m months).
Proof.
  unfold uniqueMonths.
  assert (Hperm : Permutation (sortWith str_compare (firsts months))
                              (firsts months)) by apply sortWith_perm.
  assert (Hnd : NoDup (sortWith str_compare (firsts months)))
    by (rewrite Hperm; apply firsts_NoDup).
  split; [|split].
  - apply NoDup_ListNoDup, List.NoDup_rev, NoDup_ListNoDup, Hnd.
  - apply StronglySorted_rev.
    apply (StronglySorted_weaken (fun _ => True)
             (fun a b => before str_compare (fun _ _ => True) a b /\ a <> b)).
    + apply Forall_forall. auto.
    + intros a b _ _ [[H|[H _]] Hne]; [exact H|].
      apply str_compare_Eq in H. contradiction.
    + apply StronglySorted_NoDup_strict; [|exact Hnd].
      apply (sortWith_before (fun _ => True) _ str_compare_consistent).
      * apply Forall_forall. auto.
      * apply always_sorted.
  - intros m. rewrite <- in_rev, <- (firsts_In m months). split; intros H.
    + apply (Permutation_in m Hperm H).
    + apply (Permutation_in m (Permutation_sym Hperm) H).
Qed.

Lemma monthOptionsOf_values behindUTC months :
  map MonthOption.value (monthOptionsOf behindUTC months) = uniqueMonths months.
Proof.
  unfold monthOptionsOf. rewrite map_map. simpl. apply map_id.
Qed.

Lemma monthOptionsOf_labels behindUTC months :
  Forall (fun o => MonthOption.label o
                   = longMonthLabel behindUTC (MonthOption.value o))
         (monthOptionsOf behindUTC months).
Proof.
  unfold monthOptionsOf. apply Forall_forall. intros o Ho.
  apply list_elem_of_In, in_map_iff in Ho as (m & <- & _). reflexivity.
Qed.

(** X5. The month selector of the budget list offers each month that some
    budget has exactly once, the latest month first, each labelled from its
    own key; without data it is empty, and a value that is not an array
    makes it throw. *)
Theorem X5_budget_month_options (behindUTC : bool) (budgets : queryData Budget) :
  match budgets with
  | Undefined => budgetMonthOptions behindUTC budgets = Return []
  | NonArray _ => budgetMonthOptions behindUTC budgets = Throw TypeError
  | Arr bs =>
      exists options,
        budgetMonthOptions behindUTC budgets = Return options
        /\ NoDup (map MonthOption.value options)
        /\ StronglySorted (fun a b => str_compare b a = Lt)
                          (map MonthOption.value options)
        /\ (forall m, In m (map MonthOption.value options)
                      <-> exists b, In b bs /\ Budget.month b = m)
        /\ Forall (fun o => MonthOption.label o
                            = longMonthLabel behindUTC (MonthOption.value o))
                  options
  end.
Proof.
  destruct budgets as [| |bs]; try reflexivity.
  exists (monthOptionsOf behindUTC (map Budget.month bs)).
  rewrite monthOptionsOf_values.
  destruct (uniqueMonths_spec (map Budget.month bs)) as (Hnd & Hs & Hin).
  split; [reflexivity|]. split; [exact Hnd|]. split; [exact Hs|].
  split; [|apply monthOptionsOf_labels].
  intros m. rewrite Hin, in_map_iff. split; intros (b & H1 & H2); eauto.
Qed.

(** X6. Choosing a month that the selector of the budget list offers never
    leads to the empty list: at least one budget is shown, and every budget
    shown is of that month (the empty key, should a budget have it, selects
    every budget, as the entry "All months" does). *)
Theorem X6_offered_month_shows_budgets (behindUTC : bool)
    (budgets : list Budget) (expenses : list Expense)
    (options : list MonthOption) (month : string) :
  budgetMonthOptions behindUTC (Arr budgets) = Return options ->
  In month (map MonthOption.value options) ->
  exists ranked,
    BudgetList.budgetsWithSpending (Arr budgets) (Arr expenses) month
    = Return ranked
    /\ ranked <> []
    /\ (month <> "" -> Forall (fun r => BudgetList.month r = month) ranked).
Proof.
  intros Hopts Hin. injection Hopts as <-.
  rewrite monthOptionsOf_values in Hin.
  apply uniqueMonths_spec, in_map_iff in Hin as (b & Hb & Hbin).
  set (shown := List.filter (BudgetList.monthShown month) budgets).
  set (computed := map (BudgetList.progress expenses) shown).
  assert (Hshown : In b shown).
  { apply filter_In. split; [exact Hbin|]. unfold BudgetList.monthShown.
    rewrite Hb, String.eqb_refl. apply orb_true_r. }
  assert (Hperm : Permutation (BudgetList.rank computed) computed)
    by apply sortWith_perm.
  exists (BudgetList.rank computed).
  split; [reflexivity|]. split.
  - intros Hnil. rewrite Hnil in Hperm.
    apply Permutation_nil in Hperm.
    apply (in_map (BudgetList.progress expenses)) in Hshown.
    fold computed in Hshown. rewrite Hperm in Hshown. contradiction.
  - intros Hne. apply Forall_forall. intros r Hr.
    apply list_elem_of_In, (Permutation_in r Hperm), in_map_iff in Hr
      as (b' & <- & Hb').
    apply filter_In in Hb' as [_ Hb'].
    unfold BudgetList.monthShown in Hb'.
    apply orb_true_iff in Hb' as [Hb'|Hb'].
    + apply str_not_true in Hb'. contradiction.
    + apply String.eqb_eq in Hb'. exact Hb'.
Qed.

Lemma X6_offered_month_shows_budgets_witness :
  exists ranked,
    BudgetList.budgetsWithSpending (Arr demoBudgets) (Arr demoExpenses) "2025-09"
    = Return ranked
    /\ ranked <> [].
Proof.
  assert (Hopts : budgetMonthOptions false (Arr demoBudgets)
                  = Return (monthOptionsOf false (map Budget.month demoBudgets)))
    by reflexivity.
  assert (Hin : In "2025-09"
                   (map MonthOption.value
                        (monthOptionsOf false (map Budget.month demoBudgets))))
    by (vm_compute; auto).
  destruct (X6_offered_month_shows_budgets false demoBudgets demoExpenses
              _ "2025-09" Hopts Hin) as (ranked & H1 & H2 & _).
  exists ranked. auto.
Defined.

(** * Further properties of the dashboard *)

(** X7. The month selector of the dashboard offers each month in which an
    expense is dated (the first seven characters of its date) exactly once,
    the latest first.  The guard of the metrics does not cover it: for a
    value that is not an array the metrics are [null] but the selector
    throws. *)
Theorem X7_dashboard_month_options (behindUTC : bool)
    (expenses : queryData Expense) (budgets : queryData Budget)
    (selectedMonth : string) :
  match expenses with
  | Undefined => dashboardMonthOptions behindUTC expenses = Return []
  | NonArray _ =>
      dashboardMonthOptions behindUTC expenses = Throw TypeError
      /\ Dashboard.dashboardMetrics expenses budgets selectedMonth = Return None
  | Arr es =>
      exists options,
        dashboardMonthOptions behindUTC expenses = Return options
        /\ NoDup (map MonthOption.value options)
        /\ StronglySorted (fun a b => str_compare b a = Lt)
                          (map MonthOption.value options)
        /\ (forall m, In m (map MonthOption.value options)
                      <-> exists e, In e es
                                    /\ substring 0 7 (Expense.date e) = m)
        /\ Forall (fun o => MonthOption.label o
                            = longMonthLabel behindUTC (MonthOption.value o))
                  options
  end.
Proof.
  destruct expenses as [|truthy|es]; [reflexivity| |].
  - split; [reflexivity|]. destruct truthy, budgets as [|[]|]; reflexivity.
  - set (months := map (fun e => substring 0 7 (Expense.date e)) es).
    exists (monthOptionsOf behindUTC months).
    rewrite monthOptionsOf_values.
    destruct (uniqueMonths_spec months) as (Hnd & Hs & Hin).
    split; [reflexivity|]. split; [exact Hnd|]. split; [exact Hs|].
    split; [|apply monthOptionsOf_labels].
    intros m. rewrite Hin. unfold months. rewrite in_map_iff.
    split; intros (e & H1 & H2); eauto.
Qed.

Lemma prefix_substring n s : String.prefix (substring 0 n s) s = true.
Proof.
  revert s. induction n as [|n IH]; intros [|c s]; simpl; try reflexivity.
  destruct (ascii_dec c c); [apply IH | congruence].
Qed.

Lemma grouped_nonempty {A} (key : A -> string) (amt : A -> Qc) l :
  l <> [] -> Object_entries (grouped key amt l) <> [].
Proof.
  intros Hl Hnil.
  assert (Hperm := Object_entries_perm (grouped key amt l)).
  rewrite Hnil in Hperm. apply Permutation_nil in Hperm.
  assert (Hkeys := grouped_keys key amt l). rewrite Hperm in Hkeys.
  destruct l as [|x l]; [congruence|]. discriminate Hkeys.
Qed.




Lemma filter_all {A} (f : A -> bool) l :
  (forall x, In x l -> f x = true) -> List.filter f l = l.
Proof.
  induction l as [|x l IH]; intros H; simpl; [reflexivity|].
  rewrite (H x (or_introl eq_refl)), IH; [reflexivity|].
  intros y Hy. apply H. right. exact Hy.
Qed.

Lemma filter_none {A} (f : A -> bool) l :
  (forall x, In x l -> f x = false) -> List.filter f l = [].
Proof.
  induction l as [|x l IH]; intros H; simpl; [reflexivity|].
  rewrite (H x (or_introl eq_refl)). apply IH.
  intros y Hy. apply H. right. exact Hy.
Qed.

(** X10. The dashboard reports "over budget" exactly when the month's
    spending exceeds the sum of the limits of the budgets whose month is the
    selected key.  Expenses are matched by prefix and budgets by equality:
    with the empty key ("All months") every expense counts and, unless a
    budget has the empty month, no budget does, so the budget total is 0 and
    any spending at all is over budget. *)
Theorem X10_dashboard_over_budget
    (expenses : list Expense) (budgets : list Budget) (selectedMonth : string) :
  let m := Dashboard.metrics expenses budgets selectedMonth in
  (dashboardIsOverBudget m = true
   <-> (Dashboard.totalBudget m < Dashboard.totalMonthlySpend m)%Qc)
  /\ Dashboard.totalBudget m
     = total (map Budget.monthlyLimit
                  (List.filter (fun b => String.eqb (Budget.month b) selectedMonth)
                               budgets))
  /\ (selectedMonth = "" ->
      Dashboard.totalMonthlySpend m = amountTotal expenses
      /\ (Forall (fun b => Budget.month b <> "") budgets ->
          Dashboard.totalBudget m = 0%Qc
          /\ (dashboardIsOverBudget m = true <-> (0 < amountTotal expenses)%Qc))).
Proof.
  intros m.
  assert (Hover : dashboardIsOverBudget m = true
                  <-> (Dashboard.totalBudget m < Dashboard.totalMonthlySpend m)%Qc).
  { unfold dashboardIsOverBudget. rewrite Qc_ltb_true.
    change (Dashboard.remainingBudget m)
      with (Dashboard.totalBudget m - Dashboard.totalMonthlySpend m)%Qc.
    rewrite !Qclt_alt. fold (sgn (Dashboard.totalBudget m
                                  - Dashboard.totalMonthlySpend m)).
    rewrite sgn_minus. reflexivity. }
  assert (Hbudget : Dashboard.totalBudget m
            = total (map Budget.monthlyLimit
                         (Dashboard.currentMonthBudgets budgets selectedMonth))).
  { simpl. rewrite fold_left_Qcplus. ring. }
  split; [exact Hover|]. split; [exact Hbudget|].
  intros ->.
  assert (Hspend : Dashboard.totalMonthlySpend m = amountTotal expenses).
  { simpl. rewrite sumOfAmounts_total. f_equal.
    apply filter_all. intros e _. unfold startsWith.
    destruct (Expense.date e); reflexivity. }
  split; [exact Hspend|].
  intros Hmonths.
  assert (H0 : Dashboard.totalBudget m = 0%Qc).
  { rewrite Hbudget. unfold Dashboard.currentMonthBudgets.
    rewrite filter_none; [reflexivity|].
    intros b Hb. rewrite Forall_forall in Hmonths.
    apply String.eqb_neq, Hmonths, list_elem_of_In, Hb. }
  split; [exact H0|].
  rewrite Hover, H0, Hspend. reflexivity.
Qed.

(** * Further properties of the report *)

Lemma categoryData_nonempty expenses :
  expenses <> [] -> Report.categoryData expenses <> [].
Proof.
  intros Hne Hnil.
  assert (Hperm := categoryData_perm expenses). rewrite Hnil in Hperm.
  apply Permutation_nil, map_eq_nil in Hperm.
  assert (Hkeys := grouped_keys Expense.category Expense.amount expenses).
  rewrite Hperm in Hkeys.
  destruct expenses; [congruence | discriminate Hkeys].
Qed.

Lemma categoryData_descending expenses :
  StronglySorted (fun a b => (value b <= value a)%Qc)
                 (Report.categoryData expenses).
Proof.
  rewrite categoryData_sortWith.
  apply (StronglySorted_weaken (fun _ => True)
           (before (fun a b => Qccompare (value b) (value a))
                   (fun _ _ => True))).
  - apply Forall_forall. auto.
  - intros a b _ _ [H|[H _]]; apply Qcle_alt; simpl in H; rewrite H;
      discriminate.
  - apply (sortWith_before (fun _ => True) _ byValue_consistent).
    + apply Forall_forall. auto.
    + apply always_sorted.
Qed.

Lemma Qc_of_count_nonzero n : Qc_of_Z (Z.of_nat (S n)) <> 0%Qc.
Proof.
  intros H. apply (f_equal (fun q => Qnum (this q))) in H. simpl in H.
  discriminate H.
Qed.

Lemma reportMetrics_some behindUTC filtered :
  filtered <> [] ->
  Report.reportMetrics behindUTC filtered
  = Some {| Report.m_totalSpent := Report.totalSpent filtered;
            Report.m_averageExpense := Report.averageExpense filtered;
            Report.m_expenseCount := List.length filtered;
            Report.m_categoryData := Report.categoryData filtered;
            Report.m_monthlyData := Report.monthlyData behindUTC filtered;
            Report.m_topCategory := head (Report.categoryData filtered) |}.
Proof. destruct filtered; [congruence | reflexivity]. Qed.



(** X13. A date range whose end is before its start selects nothing: the
    filter returns the empty list and the report shows no metrics. *)
Theorem X13_inverted_range_selects_nothing
    (behindUTC : bool) (expenses : list Expense) (f : Report.Filters) :
  Report.startDate f <> "" -> Report.endDate f <> "" ->
  str_compare (Report.endDate f) (Report.startDate f) = Lt ->
  Report.filteredExpenses (Arr expenses) f = Return []
  /\ Report.pageMetrics behindUTC (Arr expenses) f = Return None.
Proof.
  intros Hs He Hlt.
  assert (Hnone : List.filter (Report.keeps f) expenses = []).
  { apply filter_none. intros e _.
    destruct (Report.keeps f e) eqn:K; [|reflexivity].
    apply keeps_spec in K. destruct K as (K1 & K2 & _).
    specialize (K1 Hs). specialize (K2 He). exfalso.
    assert (C := str_compare_consistent).
    assert (Hsd : str_compare (Report.startDate f) (Expense.date e) <> Gt).
    { rewrite (cmp_antisym _ _ C (Expense.date e) (Report.startDate f) I I).
      destruct (str_compare (Expense.date e) (Report.startDate f));
        simpl; congruence. }
    assert (Hse := cmp_trans _ _ C _ _ _ I I I Hsd K2).
    rewrite (cmp_antisym _ _ C (Report.endDate f) (Report.startDate f) I I),
      Hlt in Hse.
    apply Hse. reflexivity. }
  unfold Report.pageMetrics, Report.filteredExpenses. simpl.
  rewrite Hnone. split; reflexivity.
Qed.

Lemma X13_inverted_range_selects_nothing_witness :
  Report.filteredExpenses (Arr demoExpenses)
    {| Report.startDate := "2025-09-01"; Report.endDate := "2025-08-01";
       Report.selectedCategory := "" |}
  = Return [].
Proof.
  apply (X13_inverted_range_selects_nothing false demoExpenses
           {| Report.startDate := "2025-09-01"; Report.endDate := "2025-08-01";
              Report.selectedCategory := "" |});
    [discriminate | discriminate | reflexivity].
Defined.

Lemma filter_andb {A} (f g : A -> bool) l :
  List.filter f (List.filter g l) = List.filter (fun x => g x && f x) l.
Proof.
  induction l as [|x l IH]; simpl; [reflexivity|].
  destruct (g x); simpl; [destruct (f x)|]; rewrite IH; reflexivity.
Qed.

(** X14. The three criteria of the report's filter act independently:
    filtering by the start date, then the result by the end date, then that
    result by the category gives the list that the full filter gives, and
    filtering a filtered list again changes nothing. *)
Theorem X14_filter_criteria_compose (expenses : list Expense) (f : Report.Filters) :
  let byStart := {| Report.startDate := Report.startDate f;
                    Report.endDate := ""; Report.selectedCategory := "" |} in
  let byEnd := {| Report.startDate := ""; Report.endDate := Report.endDate f;
                  Report.selectedCategory := "" |} in
  let byCategory := {| Report.startDate := ""; Report.endDate := "";
                       Report.selectedCategory := Report.selectedCategory f |} in
  exists kept k1 k2,
    Report.filteredExpenses (Arr expenses) f = Return kept
    /\ Report.filteredExpenses (Arr expenses) byStart = Return k1
    /\ Report.filteredExpenses (Arr k1) byEnd = Return k2
    /\ Report.filteredExpenses (Arr k2) byCategory = Return kept
    /\ Report.filteredExpenses (Arr kept) f = Return kept.
Proof.
  intros byStart byEnd byCategory.
  exists (List.filter (Report.keeps f) expenses),
         (List.filter (Report.keeps byStart) expenses),
         (List.filter (Report.keeps byEnd)
                      (List.filter (Report.keeps byStart) expenses)).
  unfold Report.filteredExpenses. simpl.
  split; [reflexivity|]. split; [reflexivity|]. split; [reflexivity|].
  split; f_equal.
  - rewrite !filter_andb. apply filter_ext. intros e.
    unfold Report.keeps, byStart, byEnd, byCategory.
    cbn [Report.startDate Report.endDate Report.selectedCategory str_not orb].
    destruct (str_not (Report.startDate f) || _),
             (str_not (Report.endDate f) || _),
             (str_not (Report.selectedCategory f) || _); reflexivity.
  - rewrite filter_andb. apply filter_ext. intros e.
    destruct (Report.keeps f e); reflexivity.
Qed.

(** * The expense list *)

Lemma includes_spec s t :
  ExpenseList.includes s t = true
  <-> exists pre post, s = String.append pre (String.append t post).
Proof.
  induction s as [|c s IH]; cbn [ExpenseList.includes].
  - rewrite orb_false_r, prefix_append. split.
    + intros [post H]. exists EmptyString, post. exact H.
    + intros (pre & post & H). exists post.
      destruct pre as [|c pre]; [exact H | discriminate H].
  - rewrite orb_true_iff, prefix_append, IH. split.
    + intros [[post H]|(pre & post & H)].
      * exists EmptyString, post. exact H.
      * exists (String c pre), post. rewrite append_String, H. reflexivity.
    + intros ([|c' pre] & post & H).
      * left. exists post. exact H.
      * right. exists pre, post. rewrite append_String in H.
        injection H as _ H. exact H.
Qed.

Lemma matches_spec searchTerm filterCategory e :
  ExpenseList.matches searchTerm filterCategory e = true
  <-> (exists pre post,
         ExpenseList.toLowerCase (Expense.description e)
         = String.append pre
             (String.append (ExpenseList.toLowerCase searchTerm) post))
      /\ (filterCategory = "" \/ Expense.category e = filterCategory).
Proof.
  unfold ExpenseList.matches.
  rewrite andb_true_iff, includes_spec, orb_true_iff, String.eqb_eq.
  destruct filterCategory; simpl; intuition congruence.
Qed.

Lemma includes_empty s : ExpenseList.includes s "" = true.
Proof. destruct s; reflexivity. Qed.

(** X15. What the expense list shows.  For a missing collection it shows
    nothing, for a value that is not an array the unguarded [filter] call
    throws, and for an array it shows, in every sort mode and with every
    platform clock and collation, a rearrangement of the matching
    expenses: those whose lower-cased description contains the lower-cased
    search term and whose category is the selected one when one is
    selected.  With no search term and no category every expense is
    shown. *)
Theorem X15_expense_list_shows_the_matches
    (getTime : string -> num) (collate : string -> string -> num)
    (expenses : queryData Expense) (searchTerm filterCategory : string)
    (sortBy : ExpenseList.SortBy) (sortOrder : ExpenseList.SortOrder) :
  let result :=
    ExpenseList.filteredAndSortedExpenses getTime collate expenses
      searchTerm filterCategory sortBy sortOrder in
  match expenses with
  | Undefined => result = Return []
  | NonArray _ => result = Throw TypeError
  | Arr es =>
      exists shown,
        result = Return shown
        /\ Permutation shown
             (List.filter (ExpenseList.matches searchTerm filterCategory) es)
        /\ (forall e, In e shown <->
              In e es
              /\ (exists pre post,
                    ExpenseList.toLowerCase (Expense.description e)
                    = String.append pre
                        (String.append (ExpenseList.toLowerCase searchTerm)
                                       post))
              /\ (filterCategory = "" \/ Expense.category e = filterCategory))
        /\ (searchTerm = "" -> filterCategory = "" -> Permutation shown es)
  end.
Proof.
  intros result. destruct expenses as [|truthy|es]; try reflexivity.
  set (matching := List.filter (ExpenseList.matches searchTerm filterCategory) es).
  exists (Array_sort (ExpenseList.compare getTime collate sortBy sortOrder)
                     matching).
  assert (Hperm : Permutation
                    (Array_sort (ExpenseList.compare getTime collate sortBy
                                                     sortOrder) matching)
                    matching) by apply sortWith_perm.
  split; [reflexivity|]. split; [exact Hperm|]. split.
  - intros e. rewrite <- matches_spec, <- filter_In. split.
    + apply Permutation_in, Hperm.
    + apply Permutation_in. symmetry. exact Hperm.
  - intros -> ->. etransitivity; [exact Hperm|].
    unfold matching. rewrite filter_all; [reflexivity|].
    intros e _. unfold ExpenseList.matches. simpl.
    rewrite includes_empty. reflexivity.
Qed.

Lemma sgn_opp q : sgn (- q)%Qc = CompOpp (sgn q).
Proof.
  unfold sgn. rewrite (Qccompare_swap q 0), CompOpp_involutive.
  replace (- q)%Qc with (0 - q)%Qc by ring. apply sgn_minus.
Qed.

Lemma sortSign_num_neg v : sortSign (num_neg v) = CompOpp (sortSign v).
Proof. destruct v; simpl; try reflexivity. apply sgn_opp. Qed.

Lemma num_compare_swap x y : CompOpp (num_compare x y) = num_compare y x.
Proof.
  destruct x, y; simpl; try reflexivity.
  symmetry. apply Qccompare_swap.
Qed.

Lemma compare_sign getTime collate sortBy sortOrder a b :
  sortSign (ExpenseList.compare getTime collate sortBy sortOrder a b)
  = match sortOrder with
    | ExpenseList.Asc =>
        sortSign (ExpenseList.compare getTime collate sortBy ExpenseList.Asc a b)
    | ExpenseList.Desc =>
        CompOpp (sortSign (ExpenseList.compare getTime collate sortBy
                                               ExpenseList.Asc a b))
    end.
Proof. destruct sortOrder; [reflexivity | apply sortSign_num_neg]. Qed.

Lemma isEq_Qccompare a b : isEq (a ?= b)%Qc = Qc_eq_bool b a.
Proof.
  unfold Qc_eq_bool. destruct (Qcanon.Qc_eq_dec b a) as [->|Hne].
  - rewrite (proj1 (Qceq_alt a a) eq_refl). reflexivity.
  - destruct (a ?= b)%Qc eqn:E; try reflexivity.
    apply Qceq_alt in E. congruence.
Qed.

Lemma isEq_CompOpp c : isEq (CompOpp c) = isEq c.
Proof. destruct c; reflexivity. Qed.

Lemma Consistent_by_order {A} (c : A -> A -> comparison)
      (sortOrder : ExpenseList.SortOrder) (P : A -> Prop) :
  Consistent P c ->
  Consistent P (fun a b => match sortOrder with
                           | ExpenseList.Asc => c a b
                           | ExpenseList.Desc => CompOpp (c a b)
                           end).
Proof.
  intros H. destruct sortOrder; [exact H|]. split.
  - intros a b Pa Pb. rewrite (cmp_antisym P c H a b Pa Pb). reflexivity.
  - intros a b x Pa Pb Px.
    rewrite <- (cmp_antisym P c H a b Pa Pb), <- (cmp_antisym P c H b x Pb Px),
            <- (cmp_antisym P c H a x Pa Px).
    intros Hab Hbx. apply (cmp_trans P c H x b a); auto.
Qed.

(** X16. Sorting the expense list by amount: the list shown is in
    ascending, respectively descending, order of amount, and in both
    directions expenses of the same amount keep the order they have in
    the data (so the descending list is not the ascending one reversed). *)
Theorem X16_amount_sort_is_stable
    (getTime : string -> num) (collate : string -> string -> num)
    (expenses : list Expense) (searchTerm filterCategory : string)
    (sortOrder : ExpenseList.SortOrder) :
  let matching :=
    List.filter (ExpenseList.matches searchTerm filterCategory) expenses in
  exists shown,
    ExpenseList.filteredAndSortedExpenses getTime collate (Arr expenses)
      searchTerm filterCategory ExpenseList.ByAmount sortOrder
    = Return shown
    /\ StronglySorted
         (fun a b => match sortOrder with
                     | ExpenseList.Asc =>
                         (Expense.amount a <= Expense.amount b)%Qc
                     | ExpenseList.Desc =>
                         (Expense.amount b <= Expense.amount a)%Qc
                     end) shown
    /\ forall x : Qc,
         List.filter (fun e => Qc_eq_bool (Expense.amount e) x) shown
         = List.filter (fun e => Qc_eq_bool (Expense.amount e) x) matching.
Proof.
  intros matching.
  set (c := fun a b : Expense =>
              match sortOrder with
              | ExpenseList.Asc => (Expense.amount a ?= Expense.amount b)%Qc
              | ExpenseList.Desc =>
                  CompOpp (Expense.amount a ?= Expense.amount b)%Qc
              end).
  assert (Hc : Consistent (fun _ : Expense => True) c).
  { apply Consistent_by_order.
    apply (Consistent_on _ (fun _ => True) Expense.amount); [auto|].
    apply Qccompare_consistent. }
  assert (Hall : Forall (fun _ : Expense => True) matching)
    by (apply Forall_forall; auto).
  exists (sortWith c matching). split; [|split].
  - unfold ExpenseList.filteredAndSortedExpenses, Array_sort. simpl.
    f_equal. apply sortWith_ext. intros a b.
    rewrite compare_sign. unfold c. simpl. rewrite sgn_minus. reflexivity.
  - apply (StronglySorted_weaken (fun _ => True)
                                 (before c (fun _ _ => True))).
    + apply sortWith_Forall, Hall.
    + intros a b _ _ Hab. unfold before, c in Hab.
      destruct sortOrder.
      * apply Qcle_alt. destruct Hab as [H|[H _]]; rewrite H; discriminate.
      * apply Qcle_alt. rewrite (Qccompare_swap (Expense.amount b)).
        destruct Hab as [H|[H _]]; rewrite H; discriminate.
    + apply (sortWith_before (fun _ => True) c Hc); [exact Hall|].
      apply always_sorted.
  - intros x.
    set (a := {| Expense.id := None; Expense.description := "";
                 Expense.amount := x; Expense.category := "";
                 Expense.date := "" |}).
    assert (Htie : forall l,
               List.filter (fun e => Qc_eq_bool (Expense.amount e) x) l
               = List.filter (fun e => isEq (c a e)) l).
    { intros l. apply filter_ext. intros e. unfold c.
      destruct sortOrder; [|rewrite isEq_CompOpp];
        rewrite isEq_Qccompare; reflexivity. }
    rewrite !Htie.
    apply (sortWith_tied (fun _ => True) c Hc); [exact I | exact Hall].
Qed.

(** X17. Sorting the expense list by date, when every date is one the
    platform can read: the list shown is in ascending, respectively
    descending, order of time stamp, and expenses of the same time stamp
    keep the order they have in the data. *)
Theorem X17_date_sort_is_stable
    (getTime : string -> num) (collate : string -> string -> num)
    (expenses : list Expense) (searchTerm filterCategory : string)
    (sortOrder : ExpenseList.SortOrder) :
  Forall (fun e => getTime (Expense.date e) <> NaN) expenses ->
  let matching :=
    List.filter (ExpenseList.matches searchTerm filterCategory) expenses in
  let time e := getTime (Expense.date e) in
  exists shown,
    ExpenseList.filteredAndSortedExpenses getTime collate (Arr expenses)
      searchTerm filterCategory ExpenseList.ByDate sortOrder
    = Return shown
    /\ StronglySorted
         (fun a b => match sortOrder with
                     | ExpenseList.Asc => num_compare (time a) (time b) <> Gt
                     | ExpenseList.Desc => num_compare (time b) (time a) <> Gt
                     end) shown
    /\ forall a, In a matching ->
         List.filter (fun e => num_eqb (time e) (time a)) shown
         = List.filter (fun e => num_eqb (time e) (time a)) matching.
Proof.
  intros Hvalid matching time.
  set (P := fun e : Expense => time e <> NaN).
  set (c := fun a b : Expense =>
              match sortOrder with
              | ExpenseList.Asc => num_compare (time a) (time b)
              | ExpenseList.Desc => CompOpp (num_compare (time a) (time b))
              end).
  assert (Hc : Consistent P c).
  { apply Consistent_by_order.
    apply (Consistent_on _ (fun x => x <> NaN) time); [auto|].
    apply num_compare_consistent. }
  assert (Hall : Forall P matching).
  { apply Forall_List_filter. exact Hvalid. }
  exists (sortWith c matching). split; [|split].
  - unfold ExpenseList.filteredAndSortedExpenses, Array_sort. simpl.
    f_equal. apply sortWith_ext. intros a b.
    rewrite compare_sign. unfold c. simpl. rewrite sortSign_num_sub.
    reflexivity.
  - apply (StronglySorted_weaken P (before c (fun _ _ => True))).
    + apply sortWith_Forall, Hall.
    + intros a b _ _ Hab. unfold before, c in Hab.
      destruct sortOrder.
      * destruct Hab as [H|[H _]]; rewrite H; discriminate.
      * rewrite <- num_compare_swap.
        destruct Hab as [H|[H _]]; rewrite H; discriminate.
    + apply (sortWith_before P c Hc); [exact Hall|].
      apply always_sorted.
  - intros a Ha.
    assert (Pa : P a).
    { rewrite Forall_forall in Hall. apply Hall, list_elem_of_In, Ha. }
    assert (Htie : forall l, Forall P l ->
               List.filter (fun e => num_eqb (time e) (time a)) l
               = List.filter (fun e => isEq (c a e)) l).
    { intros l Hl. induction Hl as [|e l Pe Hl IH]; [reflexivity|].
      simpl. rewrite IH.
      replace (isEq (c a e)) with (num_eqb (time e) (time a)); [reflexivity|].
      unfold c. destruct sortOrder; [|rewrite isEq_CompOpp];
        unfold P in Pa, Pe;
        destruct (time a) as [p| | |], (time e) as [q| | |];
        try congruence; try reflexivity; simpl;
        rewrite isEq_Qccompare; unfold Qc_eq_bool; reflexivity. }
    rewrite (Htie _ (sortWith_Forall _ _ _ Hall)), (Htie _ Hall).
    apply (sortWith_tied P c Hc); [exact Pa | exact Hall].
Qed.

Lemma X17_date_sort_is_stable_witness :
  exists shown,
    ExpenseList.filteredAndSortedExpenses sampleClock localeCompare
      (Arr demoExpenses) "" "" ExpenseList.ByDate ExpenseList.Desc
    = Return shown.
Proof.
  assert (H : Forall (fun e => sampleClock (Expense.date e) <> NaN)
                     demoExpenses)
    by (apply Forall_forall; intros; discriminate).
  destruct (X17_date_sort_is_stable sampleClock localeCompare demoExpenses
              "" "" ExpenseList.Desc H) as (shown & Hs & _).
  exists shown. exact Hs.
Defined.

Lemma lowerChar_idem c :
  ExpenseList.lowerChar (ExpenseList.lowerChar c) = ExpenseList.lowerChar c.
Proof. destruct c as [[] [] [] [] [] [] [] []]; reflexivity. Qed.

Lemma toLowerCase_idem s :
  ExpenseList.toLowerCase (ExpenseList.toLowerCase s)
  = ExpenseList.toLowerCase s.
Proof.
  induction s as [|c s IH]; simpl; [reflexivity|].
  rewrite lowerChar_idem, IH. reflexivity.
Qed.


(** * The month options of the budget form *)

Lemma digit_digitChar d :
  (d < 10)%N -> digit (BudgetForm.digitChar d) = Some d.
Proof.
  intros H. destruct d as [|p]; [reflexivity|].
  do 4 (try (destruct p as [p|p|]; try lia; try reflexivity)).
Qed.

Lemma digits_pad2 n acc :
  digits (BudgetForm.pad2 n) acc
  = Some (100 * acc + 10 * (n / 10 mod 10) + n mod 10)%N.
Proof.
  unfold BudgetForm.pad2.
  do 2 (cbn [digits];
        rewrite digit_digitChar by (apply N.mod_upper_bound; discriminate)).
  cbn [digits]. f_equal. lia.
Qed.

Lemma digits_pad4 n : (n < 10000)%N -> digits (BudgetForm.pad4 n) 0 = Some n.
Proof.
  intros H. unfold BudgetForm.pad4.
  do 2 (cbn [digits];
        rewrite digit_digitChar by (apply N.mod_upper_bound; discriminate)).
  rewrite digits_pad2. f_equal.
  zify. Z.to_euclidean_division_equations. lia.
Qed.

Lemma append_Empty s : String.append EmptyString s = s.
Proof. reflexivity. Qed.

Lemma parseDate_iso y m :
  validMonth (y, m) ->
  let key := String.append (BudgetForm.pad4 y) (String "-" (BudgetForm.pad2 m)) in
  Report.parseDate key = Some (y, m)
  /\ Report.parseDate (String.append key "-01") = Some (y, m).
Proof.
  intros [[Hy1 Hy2] [Hm1 Hm2]] key. simpl in Hy1, Hy2, Hm1, Hm2.
  assert (Hyear : digits (BudgetForm.pad4 y) 0 = Some y)
    by (apply digits_pad4, Hy2).
  assert (Hmonth : digits (BudgetForm.pad2 m) 0 = Some m).
  { rewrite digits_pad2. f_equal.
    zify. Z.to_euclidean_division_equations. lia. }
  assert (Hym : Report.yearMonth (BudgetForm.pad4 y) (BudgetForm.pad2 m)
                = Some (y, m)).
  { unfold Report.yearMonth. rewrite Hyear, Hmonth.
    destruct (N.leb_spec 1 m); [|lia]. destruct (N.leb_spec m 12); [|lia].
    reflexivity. }
  split; exact Hym.
Qed.

Lemma firstOfMonth_valid year index :
  (2 <= year <= 9998)%N -> (index < 24)%N ->
  validMonth (BudgetForm.firstOfMonth year index)
  /\ (2 <= fst (BudgetForm.firstOfMonth year index))%N.
Proof.
  intros Hyear Hindex. unfold validMonth, BudgetForm.firstOfMonth. simpl.
  zify. Z.to_euclidean_division_equations. lia.
Qed.

Lemma prevMonth_valid ym :
  validMonth ym -> (2 <= fst ym)%N -> validMonth (prevMonth ym).
Proof.
  destruct ym as [y m]. unfold validMonth, prevMonth. simpl.
  intros [Hy Hm] H2. destruct (N.eqb_spec m 1); simpl; lia.
Qed.

Lemma prevMonth_month ym :
  (1 <= snd ym <= 12)%N ->
  (1 <= snd (prevMonth ym) <= 12)%N /\ snd (prevMonth ym) <> snd ym.
Proof.
  destruct ym as [y m]. unfold prevMonth. simpl.
  intros Hm. destruct (N.eqb_spec m 1); simpl; lia.
Qed.

Lemma longMonthName_month y1 m1 y2 m2 :
  (1 <= m1 <= 12)%N -> (1 <= m2 <= 12)%N ->
  longMonthName (y1, m1) = longMonthName (y2, m2) -> m1 = m2.
Proof.
  intros H1 H2 H. apply (f_equal (substring 0 3)) in H.
  destruct m1 as [|p]; [lia|].
  do 4 (try (destruct p as [p|p|]; try lia));
    (destruct m2 as [|q]; [lia|];
     do 4 (try (destruct q as [q|q|]; try lia));
     solve [reflexivity | vm_compute in H; discriminate H]).
Qed.



(** * The charts *)

Lemma palette_colour index :
  exists c, nth_error Chart.COLORS (index mod List.length Chart.COLORS) = Some c
            /\ c <> "".
Proof.
  assert (H : index mod List.length Chart.COLORS < 8)
    by (apply Nat.mod_upper_bound; discriminate).
  destruct (index mod List.length Chart.COLORS) as [|n];
    [eexists; split; [reflexivity | discriminate]|].
  do 7 (destruct n as [|n];
        [eexists; split; [reflexivity | discriminate]|]).
  lia.
Qed.

Lemma fill_colour entry index :
  exists c, Chart.fill entry index = Some c /\ c <> "".
Proof.
  unfold Chart.fill. destruct (Chart.color entry) as [[|a c]|].
  - apply palette_colour.
  - eexists. split; [reflexivity | discriminate].
  - apply palette_colour.
Qed.

Lemma cellsFrom_plain ds : forall start i,
  nth_error (Chart.cellsFrom start (map Chart.plain ds)) i
  = if (i <? List.length ds)%nat
    then Some (nth_error Chart.COLORS ((start + i) mod 8))
    else None.
Proof.
  induction ds as [|d ds IH]; intros start i.
  - destruct i; reflexivity.
  - destruct i as [|i].
    + cbn [map Chart.cellsFrom nth_error List.length]. unfold Chart.fill.
      rewrite Nat.add_0_r. reflexivity.
    + cbn [map Chart.cellsFrom nth_error List.length]. rewrite IH.
      replace (S start + i) with (start + S i) by lia. reflexivity.
Qed.

Lemma cellsFrom_length entries : forall start,
  List.length (Chart.cellsFrom start entries) = List.length entries.
Proof.
  induction entries as [|e entries IH]; intros start; simpl;
    [reflexivity | rewrite IH; reflexivity].
Qed.

Lemma cellsFrom_coloured entries : forall start,
  Forall (fun cell => exists c, cell = Some c /\ c <> "")
         (Chart.cellsFrom start entries).
Proof.
  induction entries as [|e entries IH]; intros start; simpl; constructor.
  - apply fill_colour.
  - apply IH.
Qed.

(** X20. The colours of a chart.  The chart shows "No data available"
    exactly when its data is missing or empty.  Otherwise it draws one
    cell per entry, and every cell has a colour: the entry's own when it
    has one that is not empty, else one of the palette.  For entries
    without colours of their own the palette is used in order and starts
    again after its eight colours, which are all different: the cells [i]
    and [i + 8] get the same colour. *)
Theorem X20_chart_colours
    (data : option (list Chart.Entry)) (type : Chart.ChartType) :
  (Chart.Chart data type = Chart.NoData <-> data = None \/ data = Some [])
  /\ (forall entries, data = Some entries -> entries <> [] ->
        let cells := Chart.cellsFrom 0 entries in
        Chart.Chart data type
        = match type with
          | Chart.pie => Chart.PieChart cells
          | Chart.bar => Chart.BarChart cells
          end
        /\ List.length cells = List.length entries
        /\ Forall (fun cell => exists c, cell = Some c /\ c <> "") cells)
  /\ NoDup Chart.COLORS
  /\ forall (ds : list ChartData) (i : nat),
       nth_error (Chart.cellsFrom 0 (map Chart.plain ds)) i
       = (if (i <? List.length ds)%nat
          then Some (nth_error Chart.COLORS (i mod 8))
          else None)
       /\ (i + 8 < List.length ds ->
           nth_error (Chart.cellsFrom 0 (map Chart.plain ds)) (i + 8)
           = nth_error (Chart.cellsFrom 0 (map Chart.plain ds)) i).
Proof.
  split; [|split; [|split]].
  - destruct data as [[|e entries]|]; simpl.
    + split; auto.
    + destruct type; split; try discriminate; intros [H|H]; discriminate H.
    + split; auto.
  - intros entries -> Hne cells. split; [|split].
    + destruct entries; [congruence | reflexivity].
    + apply cellsFrom_length.
    + apply cellsFrom_coloured.
  - apply NoDup_ListNoDup.
    repeat (constructor; [simpl; intuition discriminate|]). constructor.
  - intros ds i. rewrite !cellsFrom_plain. split; [reflexivity|].
    intros Hlt. rewrite !Nat.add_0_l.
    destruct (Nat.ltb_spec (i + 8) (List.length ds)); [|lia].
    destruct (Nat.ltb_spec i (List.length ds)); [|lia].
    do 2 f_equal. replace (i + 8) with (i + 1 * 8) by lia.
    apply Nat.Div0.mod_add.
Qed.

Lemma X20_chart_colours_witness :
  nth_error
    (Chart.cellsFrom 0 (map Chart.plain (Report.categoryData demoExpenses))) 0
  = Some (Some "#007A7A").
Proof.
  destruct (X20_chart_colours None Chart.pie) as (_ & _ & _ & H).
  rewrite (proj1 (H (Report.categoryData demoExpenses) 0)). reflexivity.
Defined.


(** * The budget list against the dashboard *)

Lemma amountTotal_filter_split (p q : Expense -> bool) l :
  (forall e, p e = true -> q e = false) ->
  (amountTotal (List.filter p l) + amountTotal (List.filter q l))%Qc
  = amountTotal (List.filter (fun e => p e || q e) l).
Proof.
  intros Hpq. unfold amountTotal.
  induction l as [|e l IH]; simpl; [ring|].
  destruct (p e) eqn:P.
  - rewrite (Hpq e P). simpl. rewrite <- IH. ring.
  - destruct (q e); simpl; rewrite <- IH; ring.
Qed.

Lemma amountTotal_filter_mono (p q : Expense -> bool) l :
  (forall e, p e = true -> q e = true) ->
  Forall (fun e => (0 <= Expense.amount e)%Qc) l ->
  (amountTotal (List.filter p l) <= amountTotal (List.filter q l))%Qc.
Proof.
  intros Hpq Hl. unfold amountTotal.
  induction Hl as [|e l He _ IH]; simpl; [apply Qcle_refl|].
  destruct (p e) eqn:P.
  - rewrite (Hpq e P). simpl. apply Qcplus_le_compat; [apply Qcle_refl | exact IH].
  - destruct (q e); simpl; [|exact IH].
    rewrite <- (Qcplus_0_l (total _)).
    apply Qcplus_le_compat; [exact He | exact IH].
Qed.

Lemma total_map_minus {A} (f g : A -> Qc) l :
  total (map (fun x => f x - g x)%Qc l) = (total (map f l) - total (map g l))%Qc.
Proof. induction l as [|x l IH]; simpl; [ring | rewrite IH; ring]. Qed.

(** Budgets of one month and of distinct categories share no expense, so
    what they have spent together is what was spent, in that month, in the
    categories that have a budget. *)
Lemma spent_of_distinct_budgets (month : string) (es : list Expense)
      (bs : list Budget) :
  List.NoDup (map Budget.category bs) ->
  Forall (fun b => Budget.month b = month) bs ->
  total (map (fun b => amountTotal (List.filter (BudgetList.inScope b) es)) bs)
  = amountTotal
      (List.filter (fun e => startsWith (Expense.date e) month
                             && inb (Expense.category e)
                                    (map Budget.category bs)) es).
Proof.
  intros Hnd Hmonth. induction Hmonth as [|b bs Hb _ IH]; simpl.
  - symmetry. unfold amountTotal. rewrite filter_none; [reflexivity|].
    intros e _. apply andb_false_r.
  - apply List.NoDup_cons_iff in Hnd as [Hnotin Hnd].
    rewrite (IH Hnd), amountTotal_filter_split.
    + f_equal. apply filter_ext. intros e.
      unfold BudgetList.inScope, inb. rewrite Hb. simpl.
      destruct (startsWith (Expense.date e) month),
               (String.eqb (Expense.category e) (Budget.category b)),
               (existsb _ _); reflexivity.
    + intros e He. unfold BudgetList.inScope in He.
      apply andb_true_iff in He as [Hc _]. apply String.eqb_eq in Hc.
      apply andb_false_iff. right.
      destruct (inb (Expense.category e) (map Budget.category bs)) eqn:E;
        [|reflexivity].
      apply inb_In in E. rewrite Hc in E. contradiction.
Qed.


